(** * Dependency-graph analyzer of codebase-health: model and verification

    A shallow embedding of [scripts/lib/ignore.py], [scripts/lib/imports.py]
    and [scripts/circular-deps.py].

    Conventions of the embedding.
    - A Python [str] is a [string]; a character is one of the code points
      0..255 (Rocq's [ascii]).  Comparison of strings is by code point.
    - A Python [set] of strings is a [gset string].  Wherever the code iterates
      over a set, the model asks the [SetOrder] in force for the order: CPython
      fixes none (string hashing is randomised per process).
    - A Python [dict] whose iteration order is observable is an association
      list in insertion order ([dict]); a dict that is only looked up is a
      [gmap].
    - Exceptions are explicit: fallible code returns a [result].
    - What the interpreter and the operating system decide (the directory tree,
      file contents, [ast.parse], the [re] engine, [fnmatch]) is a field of the
      [Runtime] in force. *)

From Stdlib Require Import Ascii QArith Qcanon Qround.
From stdpp Require Import gmap strings list sorting numbers.

Close Scope Qc_scope.
Close Scope Q_scope.

#[local] Set Warnings "-clear-no-such-hyp".

Set Default Proof Using "Type".

(* ===================================================================== *)
(** * Exceptions *)
(* ===================================================================== *)

(** The classes of [Exception] the code can meet. [FuelExhausted] is no Python
    exception: it marks the bound the model puts on a [while] loop, and is
    shown never to be reached. *)
Inductive exn_class :=
  | SyntaxError | ValueError | OSError | KeyError | IndexError
  | RecursionError | OtherException | FuelExhausted.

Record exn := Exn { exn_cls : exn_class; exn_msg : string }.

Inductive result (A : Type) :=
  | Ok (a : A)
  | Raise (e : exn).
Arguments Ok {A} a.
Arguments Raise {A} e.

#[global] Instance result_bind : MBind result := λ A B k m,
  match m with
  | Ok a => k a
  | Raise e => Raise e
  end.
#[global] Instance result_ret : MRet result := λ A a, Ok a.

#[global] Instance exn_class_eq_dec : EqDecision exn_class.
Proof. solve_decision. Defined.

(** A [for] loop whose body may raise. *)
Fixpoint foldlM {A B} (f : B → A → result B) (l : list A) (b : B) : result B :=
  match l with
  | [] => Ok b
  | x :: l' =>
      match f b x with
      | Ok b' => foldlM f l' b'
      | Raise e => Raise e
      end
  end.

(* ===================================================================== *)
(** * Built-in string methods *)
(* ===================================================================== *)

Module Py.

(** [s.startswith(pre)] *)
Definition startswith (s pre : string) : bool := String.prefix pre s.

(** [s.endswith(suf)] *)
Definition endswith (s suf : string) : bool :=
  String.prefix (String.rev suf) (String.rev s).

(** [s.split(sep)] for a non-empty [sep]: [cur] collects (reversed) the
    piece being read, [skip] the characters of a separator just matched. *)
Fixpoint split_go (sep : string) (skip : nat) (cur s : string) : list string :=
  match s with
  | "" => [String.rev cur]
  | String c s' =>
      match skip with
      | S k => split_go sep k cur s'
      | 0 =>
          if String.prefix sep s
          then String.rev cur :: split_go sep (String.length sep - 1) "" s'
          else split_go sep 0 (String c cur) s'
      end
  end.
Definition split (s sep : string) : list string := split_go sep 0 "" s.

(** [s.replace(old, new)] for a non-empty [old]. *)
Fixpoint replace_go (old new : string) (skip : nat) (s : string) : string :=
  match s with
  | "" => ""
  | String c s' =>
      match skip with
      | S k => replace_go old new k s'
      | 0 =>
          if String.prefix old s
          then new +:+ replace_go old new (String.length old - 1) s'
          else String c (replace_go old new 0 s')
      end
  end.
Definition replace (s old new : string) : string := replace_go old new 0 s.

(** [c.lower()] on the code points 0..255: A-Z and the Latin-1 capitals. *)
Definition lower_char (c : ascii) : ascii :=
  let n := Ascii.nat_of_ascii c in
  if bool_decide (65 ≤ n ≤ 90) || (bool_decide (192 ≤ n ≤ 222) && negb (bool_decide (n = 215)))
  then Ascii.ascii_of_nat (n + 32)
  else c.
Fixpoint lower (s : string) : string :=
  match s with
  | "" => ""
  | String c s' => String (lower_char c) (lower s')
  end.

(** [c.isspace()] on the code points 0..255. *)
Definition isspace (c : ascii) : bool :=
  let n := Ascii.nat_of_ascii c in
  bool_decide (9 ≤ n ≤ 13) || bool_decide (28 ≤ n ≤ 32)
  || bool_decide (n = 133) || bool_decide (n = 160).

Fixpoint lstrip (s : string) : string :=
  match s with
  | "" => ""
  | String c s' => if isspace c then lstrip s' else s
  end.
Definition rstrip (s : string) : string := String.rev (lstrip (String.rev s)).
(** [s.strip()] *)
Definition strip (s : string) : string := rstrip (lstrip s).

(** [s.lstrip(ch)] and [s.rstrip(ch)] for a one-character argument. *)
Fixpoint lstrip_char (ch : ascii) (s : string) : string :=
  match s with
  | "" => ""
  | String c s' => if decide (c = ch) then lstrip_char ch s' else s
  end.
Definition rstrip_char (ch : ascii) (s : string) : string :=
  String.rev (lstrip_char ch (String.rev s)).

(** [s.split()]: the maximal runs of non-space characters. *)
Fixpoint words_go (cur : option string) (s : string) : list string :=
  match s with
  | "" => option_list (String.rev <$> cur)
  | String c s' =>
      if isspace c
      then option_list (String.rev <$> cur) ++ words_go None s'
      else words_go (Some (String c (default "" cur))) s'
  end.
Definition words (s : string) : list string := words_go None s.

(** A line boundary of [str.splitlines]. *)
Definition is_linebreak (c : ascii) : bool :=
  let n := Ascii.nat_of_ascii c in
  bool_decide (10 ≤ n ≤ 13) || bool_decide (28 ≤ n ≤ 30) || bool_decide (n = 133).

(** [s.splitlines()]: a carriage return followed by a line feed is one
    boundary; no empty last line after a final boundary. *)
Fixpoint splitlines_go (cur : string) (s : string) : list string :=
  match s with
  | "" => match cur with "" => [] | _ => [String.rev cur] end
  | String c s' =>
      if is_linebreak c then
        match c, s' with
        | "013"%char, String "010"%char s'' =>
            String.rev cur :: (fix skip1 (t : string) : list string :=
                                 match t with
                                 | "" => []
                                 | String _ t' => splitlines_go "" t'
                                 end) s'
        | _, _ => String.rev cur :: splitlines_go "" s'
        end
      else splitlines_go (String c cur) s'
  end.
Definition splitlines (s : string) : list string := splitlines_go "" s.

(** [s.count("\n")] *)
Fixpoint count_newlines (s : string) : nat :=
  match s with
  | "" => 0
  | String c s' => (if decide (c = "010"%char) then 1 else 0) + count_newlines s'
  end.

(** [s[:n]] *)
Fixpoint take (n : nat) (s : string) : string :=
  match n, s with
  | S k, String c s' => String c (take k s')
  | _, _ => ""
  end.
(** [s[n:]] *)
Fixpoint drop (n : nat) (s : string) : string :=
  match n, s with
  | S k, String _ s' => drop k s'
  | _, _ => s
  end.

(** ["c" * n] *)
Fixpoint repeat_char (c : ascii) (n : nat) : string :=
  match n with
  | 0 => ""
  | S k => String c (repeat_char c k)
  end.

(** [sep.join(l)] *)
Fixpoint join (sep : string) (l : list string) : string :=
  match l with
  | [] => ""
  | [x] => x
  | x :: l' => x +:+ sep +:+ join sep l'
  end.

(** [a or b] on optional strings: [None] and [""] are falsy. *)
Definition truthy (o : option string) : bool :=
  match o with
  | Some (String _ _) => true
  | _ => false
  end.
Definition or_ (a b : option string) : option string :=
  if truthy a then a else b.

End Py.

(* ===================================================================== *)
(** * [os.path] (POSIX flavour) and [pathlib] *)
(* ===================================================================== *)

Module posixpath.

(** [s.rfind(c)], [-1] when [c] does not occur. *)
Fixpoint rfind_go (c : ascii) (i : Z) (last : Z) (s : string) : Z :=
  match s with
  | "" => last
  | String d s' => rfind_go c (i + 1) (if decide (d = c) then i else last) s'
  end.
Definition rfind (s : string) (c : ascii) : Z := rfind_go c 0 (-1) s.

(** [os.path.join(a, b)] *)
Definition join2 (a b : string) : string :=
  if Py.startswith b "/" then b
  else if bool_decide (a = "") || Py.endswith a "/" then a +:+ b
  else a +:+ "/" +:+ b.
(** [os.path.join(a, *p)] *)
Definition join (a : string) (p : list string) : string := foldl join2 a p.

(** [os.path.dirname(p)] *)
Definition dirname (p : string) : string :=
  let i := Z.to_nat (rfind p "/" + 1) in
  let head := Py.take i p in
  if negb (bool_decide (head = ""))
     && negb (bool_decide (head = Py.repeat_char "/" (String.length head)))
  then Py.rstrip_char "/" head
  else head.

Fixpoint all_dots (s : string) : bool :=
  match s with
  | "" => true
  | String c s' => bool_decide (c = "."%char) && all_dots s'
  end.

(** [os.path.splitext(p)]: the extension starts at the last dot of the last
    component, leading dots of that component apart. *)
Definition splitext (p : string) : string * string :=
  let sepIndex := rfind p "/" in
  let dotIndex := rfind p "." in
  if bool_decide (sepIndex < dotIndex)%Z then
    let filenameIndex := Z.to_nat (sepIndex + 1) in
    if all_dots (Py.take (Z.to_nat dotIndex - filenameIndex) (Py.drop filenameIndex p))
    then (p, "")
    else (Py.take (Z.to_nat dotIndex) p, Py.drop (Z.to_nat dotIndex) p)
  else (p, "").

(** The number of slashes [normpath] keeps in front: 0, 1 or 2. *)
Definition initial_slashes (path : string) : nat :=
  if Py.startswith path "/" then
    if Py.startswith path "//" && negb (Py.startswith path "///") then 2 else 1
  else 0.

(** The loop of [normpath] over the components; [new_comps] is kept
    reversed (its head is [new_comps[-1]]). *)
Fixpoint normpath_go (slashes : nat) (new_comps : list string)
    (comps : list string) : list string :=
  match comps with
  | [] => reverse new_comps
  | comp :: comps' =>
      if bool_decide (comp = "") || bool_decide (comp = ".") then
        normpath_go slashes new_comps comps'
      else if negb (bool_decide (comp = ".."))
              || (bool_decide (slashes = 0) && bool_decide (new_comps = []))
              || bool_decide (head new_comps = Some "..")
      then normpath_go slashes (comp :: new_comps) comps'
      else normpath_go slashes (tail new_comps) comps'
  end.

(** [os.path.normpath(path)] *)
Definition normpath (path : string) : string :=
  if bool_decide (path = "") then "." else
  let n := initial_slashes path in
  let comps := normpath_go n [] (Py.split path "/") in
  let path' := Py.repeat_char "/" n +:+ Py.join "/" comps in
  if bool_decide (path' = "") then "." else path'.

(** [os.path.abspath(path)] in the working directory [cwd]. *)
Definition abspath (cwd path : string) : string :=
  normpath (if Py.startswith path "/" then path else join2 cwd path).

Fixpoint commonprefix_len (l1 l2 : list string) : nat :=
  match l1, l2 with
  | x :: l1', y :: l2' => if decide (x = y) then S (commonprefix_len l1' l2') else 0
  | _, _ => 0
  end.

Definition nonempty_comps (p : string) : list string :=
  filter (λ x, x ≠ "") (Py.split p "/").

(** [os.path.relpath(path, start)] for a non-empty [path]. *)
Definition relpath (cwd path start : string) : string :=
  let start_list := nonempty_comps (abspath cwd start) in
  let path_list := nonempty_comps (abspath cwd path) in
  let i := commonprefix_len start_list path_list in
  let rel_list := replicate (length start_list - i) ".." ++ drop i path_list in
  match rel_list with
  | [] => "."
  | x :: l => join x l
  end.

(** [pathlib.Path(p).parts]: an optional root, then the components that
    are neither empty nor a single dot. *)
Definition parts (p : string) : list string :=
  match initial_slashes p with
  | 0 => []
  | n => [Py.repeat_char "/" n]
  end ++ filter (λ x, x ≠ "" ∧ x ≠ ".") (Py.split p "/").

End posixpath.

(* ===================================================================== *)
(** * Sets, dicts and sorting *)
(* ===================================================================== *)

(** The order in which iterating over a set yields its elements. *)
Class SetOrder := {
  set_iter : gset string → list string;
  set_iter_perm : ∀ s, set_iter s ≡ₚ elements s;
}.

(** An insertion-ordered [dict] with string keys. *)
Definition dict (V : Type) : Type := list (string * V).

Section dict.
Context {V : Type}.

(** [d.get(k)] *)
Fixpoint dict_get (d : dict V) (k : string) : option V :=
  match d with
  | [] => None
  | (k', v) :: d' => if decide (k' = k) then Some v else dict_get d' k
  end.

(** [k in d] *)
Definition dict_mem (d : dict V) (k : string) : bool :=
  bool_decide (is_Some (dict_get d k)).

(** [d[k] = v]: an existing key keeps its position, a new one goes last. *)
Fixpoint dict_set (d : dict V) (k : string) (v : V) : dict V :=
  match d with
  | [] => [(k, v)]
  | (k', v') :: d' =>
      if decide (k' = k) then (k, v) :: d' else (k', v') :: dict_set d' k v
  end.

Definition dict_keys (d : dict V) : list string := d.*1.
Definition dict_values (d : dict V) : list V := d.*2.
End dict.

(** [d.get(k, set())], and [d[k]] on a [defaultdict(set)] *)
Definition dict_get_set (d : dict (gset string)) (k : string) : gset string :=
  default ∅ (dict_get d k).

(** [d[k].add(x)] on a [defaultdict(set)] *)
Definition dict_add (d : dict (gset string)) (k x : string) : dict (gset string) :=
  dict_set d k ({[x]} ∪ dict_get_set d k).

(** [sorted(l, key=...)]: a stable sort; [le x y] says that the key of [x] is
    at most that of [y]. *)
Section sorted.
Context {A : Type} (le : A → A → Prop) `{!RelDecision le}.

Fixpoint sorted_insert (x : A) (l : list A) : list A :=
  match l with
  | [] => [x]
  | y :: l' => if decide (le x y) then x :: l else y :: sorted_insert x l'
  end.

Definition sorted (l : list A) : list A := foldr sorted_insert [] l.
End sorted.

(** [statistics.median] of a non-empty list of integers. *)
Definition median (values : list nat) : Qc :=
  let data := sorted Nat.le values in
  let n := length data in
  if Nat.odd n then Qc_of_Z (Z.of_nat (data !!! (n / 2)))
  else
    let i := n / 2 in
    let lo := Qc_of_Z (Z.of_nat (data !!! (i - 1))) in
    let hi := Qc_of_Z (Z.of_nat (data !!! i)) in
    ((lo + hi) / Qc_of_Z 2)%Qc.

(** [round(x, 1)]: to the nearest tenth, a tie to the even one. *)
Definition round1 (x : Qc) : Qc :=
  let y := (x * Qc_of_Z 10)%Qc in
  let f := Qround.Qfloor (this y) in
  let r := (y - Qc_of_Z f)%Qc in
  let half := Q2Qc (1 # 2) in
  let up := bool_decide (half < r)%Qc || (bool_decide (r = half) && Z.odd f) in
  let tenths := if up then (f + 1)%Z else f in
  (Qc_of_Z tenths / Qc_of_Z 10)%Qc.

Definition Qc_max (x y : Qc) : Qc := if decide (x < y)%Qc then y else x.

(* ===================================================================== *)
(** * The syntax trees of [ast] *)
(* ===================================================================== *)

Module ast.

Record alias := Alias { name : string; asname : option string }.

(** The test of an [if]: only the class of its top node and the name it
    carries are looked at. *)
Inductive expr :=
  | Name (id : string)
  | Attribute (attr : string)
  | OtherExpr.

(** Statements and the other nodes that have statements below them
    (handlers, match cases): [Other] lists the children in the order of
    [ast.iter_child_nodes]. *)
#[warnings="-register-all"]
Inductive node :=
  | Import (names : list alias) (lineno : nat) (end_lineno : option nat)
  | ImportFrom (module : option string) (names : list alias)
      (level : option nat) (lineno : nat) (end_lineno : option nat)
  | If (test : expr) (body orelse : list node)
      (lineno : nat) (end_lineno : option nat)
  | Other (children : list node) (lineno : nat) (end_lineno : option nat).

Definition lineno (n : node) : nat :=
  match n with
  | Import _ l _ | ImportFrom _ _ _ l _ | If _ _ _ l _ | Other _ l _ => l
  end.

Definition end_lineno (n : node) : option nat :=
  match n with
  | Import _ _ e | ImportFrom _ _ _ _ e | If _ _ _ _ e | Other _ _ e => e
  end.

(** The children that can hold statements. *)
Definition iter_child_nodes (n : node) : list node :=
  match n with
  | Import _ _ _ | ImportFrom _ _ _ _ _ => []
  | If _ body orelse _ _ => body ++ orelse
  | Other children _ _ => children
  end.

Fixpoint size (n : node) : nat :=
  match n with
  | Import _ _ _ | ImportFrom _ _ _ _ _ => 1
  | If _ body orelse _ _ => S (sum_list (map size body) + sum_list (map size orelse))
  | Other children _ _ => S (sum_list (map size children))
  end.

(** [ast.walk]: breadth first, [todo] is the deque. Every step yields one
    node, so the number of nodes is fuel enough. *)
Fixpoint walk_go (fuel : nat) (todo : list node) : list node :=
  match fuel, todo with
  | S f, n :: todo' => n :: walk_go f (todo' ++ iter_child_nodes n)
  | _, _ => []
  end.

(** [ast.walk(tree)] for a module of body [body]; the [Module] node itself,
    yielded first, is neither an import nor an [if] and is left out. *)
Definition walk (body : list node) : list node :=
  walk_go (sum_list (map size body)) body.

End ast.

(* ===================================================================== *)
(** * The interpreter and the operating system *)
(* ===================================================================== *)

(** A directory as [os.walk] lists it: sub-directories, then files, each in
    the order of the listing. *)
#[warnings="-register-all"]
Inductive dirtree :=
  | Dir (dirnames : list (string * dirtree)) (filenames : list string).

(** The groups of one match of [_JS_IMPORT_RE]. *)
Record js_match := JsMatch {
  group1 : option string; group2 : option string; group3 : option string;
  group4 : option string; group5 : option string;
}.

Class Runtime := {
  (** the working directory of the process *)
  getcwd : string;
  (** the tree [os.walk(top)] goes through; a [top] that is no directory has
      an empty one *)
  listing : string → dirtree;
  (** [os.path.isfile], [os.path.isdir] *)
  isfile : string → bool;
  isdir : string → bool;
  (** [open(p, encoding="utf-8", errors="replace").read()], [None] on
      [OSError] *)
  read_source : string → option string;
  (** [for line in open(p)]: the lines read, and the exception that ended
      the reading if one did *)
  read_lines : string → list string * option exn;
  (** [fnmatch.fnmatch(name, pattern)] *)
  fnmatch : string → string → bool;
  (** [ast.parse(source, filename)]: the body of the module *)
  ast_parse : string → string → result (list ast.node);
  (** the matches of the regular expressions, with [m.start()] where used *)
  js_import_finditer : string → list js_match;
  js_type_import_search : string → bool;
  go_import_single_finditer : string → list (nat * string);
  go_import_block_finditer : string → list (nat * string);
  go_import_line_search : string → option string;
  rust_use_finditer : string → list (nat * string);
}.

(* ===================================================================== *)
(** * lib/ignore.py *)
(* ===================================================================== *)

Module ignore.
Section ignore.
Context `{!Runtime}.

Definition DEFAULT_IGNORE_PATTERNS : list string :=
  [ ".git"; "node_modules"; "__pycache__"; ".health-scan"; "dist"; "build";
    ".venv"; "venv"; ".mypy_cache"; "*.pyc"; ".tox"; ".eggs"; "*.egg-info";
    ".next"; ".nuxt"; "coverage"; ".nyc_output"; "target" ].

Definition load_ignore_patterns (ignore_file : option string)
    (extra_patterns : option (list string)) : result (list string) :=
  from_file ←
    match ignore_file with
    | Some f =>
        if Py.truthy ignore_file && isfile f then
          let '(lines, err) := read_lines f in
          match err with
          | Some e => Raise e
          | None =>
              Ok (filter (λ line, line ≠ "" ∧ Py.startswith line "#" = false)
                    (Py.strip <$> lines))
          end
        else Ok []
    | None => Ok []
    end;
  mret (DEFAULT_IGNORE_PATTERNS ++ from_file ++ default [] extra_patterns).

Definition should_ignore (path : string) (patterns : list string)
    (root : string) : bool :=
  (* [relpath] raises ValueError on an empty path only *)
  let rel := if decide (path = "") then path
             else posixpath.relpath getcwd path root in
  let parts := posixpath.parts rel in
  existsb (λ pattern,
    let clean := Py.rstrip_char "/" pattern in
    existsb (λ part, fnmatch part clean) parts || fnmatch rel clean) patterns.

Definition SOURCE_EXTENSIONS : dict (gset string) :=
  [ ("python", {[ ".py" ]});
    ("javascript", {[ ".js"; ".jsx"; ".mjs"; ".cjs" ]});
    ("typescript", {[ ".ts"; ".tsx"; ".mts"; ".cts" ]});
    ("go", {[ ".go" ]});
    ("rust", {[ ".rs" ]});
    ("java", {[ ".java" ]});
    ("ruby", {[ ".rb" ]});
    ("php", {[ ".php" ]});
    ("c", {[ ".c"; ".h" ]});
    ("cpp", {[ ".cpp"; ".hpp"; ".cc"; ".hh"; ".cxx"; ".hxx" ]}) ].

Definition ALL_SOURCE_EXTENSIONS : gset string :=
  ⋃ dict_values SOURCE_EXTENSIONS.

(** The body of the loop over [os.walk(root)]: the files of [dirpath] that
    pass, then the sub-directories that were not pruned. *)
Fixpoint walk_dir (root : string) (patterns : list string)
    (extensions : gset string) (dirpath : string) (t : dirtree) : list string :=
  match t with
  | Dir dirnames filenames =>
      omap (λ fname,
        let fpath := posixpath.join dirpath [fname] in
        let ext := (posixpath.splitext fname).2 in
        if bool_decide (ext ∈ extensions) && negb (should_ignore fpath patterns root)
        then Some fpath else None) filenames
      ++ (fix subdirs (l : list (string * dirtree)) : list string :=
            match l with
            | [] => []
            | (d, sub) :: l' =>
                let dpath := posixpath.join dirpath [d] in
                (if should_ignore dpath patterns root then []
                 else walk_dir root patterns extensions dpath sub)
                ++ subdirs l'
            end) dirnames
  end.

Definition walk_source_files (root : string) (patterns : list string)
    (extensions : option (gset string)) : list string :=
  walk_dir root patterns (default ALL_SOURCE_EXTENSIONS extensions)
    root (listing root).

End ignore.
End ignore.

(* ===================================================================== *)
(** * lib/imports.py *)
(* ===================================================================== *)

Module imports.

Record Import := {
  source_file : string;
  target : string;
  alias : option string;
  is_type_only : bool;
  line : nat;
}.

(** The language tags, the values of [_EXT_TO_LANG]. *)
Inductive language := python | javascript | typescript | go | rust.

#[global] Instance language_eq_dec : EqDecision language.
Proof. solve_decision. Defined.

Definition _EXT_TO_LANG : dict language :=
  [ (".py", python);
    (".js", javascript); (".jsx", javascript); (".mjs", javascript);
    (".cjs", javascript);
    (".ts", typescript); (".tsx", typescript); (".mts", typescript);
    (".cts", typescript);
    (".go", go);
    (".rs", rust) ].

Definition detect_language (file_path : string) : option language :=
  let ext := Py.lower (posixpath.splitext file_path).2 in
  dict_get _EXT_TO_LANG ext.

Definition _PYTHON_STDLIB : list string :=
  [
    "abc"; "aifc"; "argparse"; "array"; "ast"; "asynchat"; "asyncio";
    "asyncore"; "atexit"; "audioop"; "base64"; "bdb"; "binascii"; "binhex";
    "bisect"; "builtins"; "bz2"; "calendar"; "cgi"; "cgitb"; "chunk";
    "cmath"; "cmd"; "code"; "codecs"; "codeop"; "collections"; "colorsys";
    "compileall"; "concurrent"; "configparser"; "contextlib";
    "contextvars"; "copy"; "copyreg"; "cProfile"; "crypt"; "csv"; "ctypes";
    "curses"; "dataclasses"; "datetime"; "dbm"; "decimal"; "difflib";
    "dis"; "distutils"; "doctest"; "email"; "encodings"; "enum"; "errno";
    "faulthandler"; "fcntl"; "filecmp"; "fileinput"; "fnmatch";
    "fractions"; "ftplib"; "functools"; "gc"; "getopt"; "getpass";
    "gettext"; "glob"; "grp"; "gzip"; "hashlib"; "heapq"; "hmac"; "html";
    "http"; "idlelib"; "imaplib"; "imghdr"; "imp"; "importlib"; "inspect";
    "io"; "ipaddress"; "itertools"; "json"; "keyword"; "lib2to3";
    "linecache"; "locale"; "logging"; "lzma"; "mailbox"; "mailcap";
    "marshal"; "math"; "mimetypes"; "mmap"; "modulefinder";
    "multiprocessing"; "netrc"; "nis"; "nntplib"; "numbers"; "operator";
    "optparse"; "os"; "ossaudiodev"; "pathlib"; "pdb"; "pickle";
    "pickletools"; "pipes"; "pkgutil"; "platform"; "plistlib"; "poplib";
    "posix"; "posixpath"; "pprint"; "profile"; "pstats"; "pty"; "pwd";
    "py_compile"; "pyclbr"; "pydoc"; "queue"; "quopri"; "random"; "re";
    "readline"; "reprlib"; "resource"; "rlcompleter"; "runpy"; "sched";
    "secrets"; "select"; "selectors"; "shelve"; "shlex"; "shutil";
    "signal"; "site"; "smtpd"; "smtplib"; "sndhdr"; "socket";
    "socketserver"; "spwd"; "sqlite3"; "ssl"; "stat"; "statistics";
    "string"; "stringprep"; "struct"; "subprocess"; "sunau"; "symtable";
    "sys"; "sysconfig"; "syslog"; "tabnanny"; "tarfile"; "telnetlib";
    "tempfile"; "termios"; "test"; "textwrap"; "threading"; "time";
    "timeit"; "tkinter"; "token"; "tokenize"; "tomllib"; "trace";
    "traceback"; "tracemalloc"; "tty"; "turtle"; "turtledemo"; "types";
    "typing"; "unicodedata"; "unittest"; "urllib"; "uu"; "uuid"; "venv";
    "warnings"; "wave"; "weakref"; "webbrowser"; "winreg"; "winsound";
    "wsgiref"; "xdrlib"; "xml"; "xmlrpc"; "zipapp"; "zipfile"; "zipimport";
    "zlib"; "_thread"; "__future__"; "typing_extensions"
  ].

(** [l[0]] of the list a [split] returned, which is never empty. *)
Definition first_piece (l : list string) : string := default "" (head l).

Section imports.
Context `{!Runtime}.

(** ** Python, through [ast] *)

Definition is_type_checking_test (test : ast.expr) : bool :=
  match test with
  | ast.Attribute attr => bool_decide (attr = "TYPE_CHECKING")
  | ast.Name id => bool_decide (id = "TYPE_CHECKING")
  | ast.OtherExpr => false
  end.

(** [node.end_lineno or node.lineno] *)
Definition block_end (final : ast.node) : nat :=
  match ast.end_lineno final with
  | Some (S e) => S e
  | _ => ast.lineno final
  end.

(** The [range(start, end + 1)] that an [if TYPE_CHECKING:] with a
    non-empty body adds to [type_checking_ranges]. *)
Definition type_checking_range (n : ast.node) : option (nat * nat) :=
  match n with
  | ast.If test body _ _ _ =>
      if is_type_checking_test test then
        match head body, list.last body with
        | Some first, Some final =>
            let start := ast.lineno first in
            let end_ := block_end final in
            Some (start, end_ + 1)
        | _, _ => None
        end
      else None
  | _ => None
  end.

Definition _in_type_checking (type_checking_ranges : list (nat * nat))
    (lineno : nat) : bool :=
  existsb (λ r, bool_decide (r.1 ≤ lineno < r.2)) type_checking_ranges.

(** The body of the second loop over [ast.walk(tree)]. *)
Definition imports_of_node (file_path : string)
    (type_checking_ranges : list (nat * nat)) (n : ast.node) : list Import :=
  match n with
  | ast.Import names lineno _ =>
      map (λ a, {| source_file := file_path;
                   target := ast.name a;
                   alias := ast.asname a;
                   is_type_only := _in_type_checking type_checking_ranges lineno;
                   line := lineno |}) names
  | ast.ImportFrom module names level lineno _ =>
      let module := default "" module in
      let prefix := Py.repeat_char "." (default 0 level) in
      let target := if decide (module = "") then prefix else prefix +:+ module in
      map (λ a, {| source_file := file_path;
                   target := target;
                   alias := ast.asname a;
                   is_type_only := _in_type_checking type_checking_ranges lineno;
                   line := lineno |}) names
  | _ => []
  end.

Definition _extract_python_imports (file_path source : string)
    : result (list Import) :=
  match ast_parse source file_path with
  | Raise e => if decide (exn_cls e = SyntaxError) then Ok [] else Raise e
  | Ok tree =>
      let type_checking_ranges := omap type_checking_range (ast.walk tree) in
      Ok (flat_map (imports_of_node file_path type_checking_ranges) (ast.walk tree))
  end.

(** ** JavaScript and TypeScript, through regular expressions *)

Definition js_line_imports (file_path : string) (i : nat) (line : string)
    : list Import :=
  let stripped := Py.strip line in
  if Py.startswith stripped "//" || Py.startswith stripped "*" then []
  else
    omap (λ m,
      let target :=
        Py.or_ (Py.or_ (Py.or_ (Py.or_ (group1 m) (group2 m)) (group3 m))
                  (group4 m)) (group5 m) in
      if Py.truthy target then
        let is_type := Py.truthy (group1 m) || js_type_import_search line in
        Some {| source_file := file_path; target := default "" target;
                alias := None; is_type_only := is_type; line := i |}
      else None) (js_import_finditer line).

Definition _extract_js_ts_imports (file_path source : string)
    (lang : language) : list Import :=
  mjoin (imap (λ i line, js_line_imports file_path (S i) line)
            (Py.splitlines source)).

(** ** Go, through regular expressions *)

(** [source[:start].count("\n") + 1] *)
Definition line_of_offset (source : string) (start : nat) : nat :=
  Py.count_newlines (Py.take start source) + 1.

Definition _extract_go_imports (file_path source : string) : list Import :=
  map (λ m, {| source_file := file_path; target := m.2; alias := None;
               is_type_only := false; line := line_of_offset source m.1 |})
    (go_import_single_finditer source)
  ++ flat_map (λ block_m,
       let block_start := line_of_offset source block_m.1 in
       mjoin (imap (λ i line,
         match go_import_line_search line with
         | Some t => [ {| source_file := file_path; target := t; alias := None;
                          is_type_only := false; line := block_start + i |} ]
         | None => []
         end) (Py.splitlines block_m.2)))
    (go_import_block_finditer source).

(** ** Rust, through a regular expression *)

Definition _extract_rust_imports (file_path source : string) : list Import :=
  map (λ m, {| source_file := file_path; target := m.2; alias := None;
               is_type_only := false; line := line_of_offset source m.1 |})
    (rust_use_finditer source).

(** ** Public API *)

Definition extract_imports (file_path : string) (lang : option language)
    : result (list Import) :=
  match (match lang with None => detect_language file_path | _ => lang end) with
  | None => Ok []
  | Some lang =>
      match read_source file_path with
      | None => Ok []
      | Some source =>
          match lang with
          | python => _extract_python_imports file_path source
          | javascript | typescript =>
              Ok (_extract_js_ts_imports file_path source lang)
          | go => Ok (_extract_go_imports file_path source)
          | rust => Ok (_extract_rust_imports file_path source)
          end
      end
  end.

(** The module path of [go.mod] as both Go functions read it: the second
    word of the first line that starts with "module ". [None] when no line
    does, or when an [OSError] ends the reading before one. *)
Definition go_module_path (root : string) : result (option string) :=
  let go_mod := posixpath.join root ["go.mod"] in
  if isfile go_mod then
    let '(lines, err) := read_lines go_mod in
    match find (λ l, Py.startswith l "module ") lines with
    | Some l =>
        match Py.words l !! 1 with
        | Some w => Ok (Some (Py.strip w))
        | None => Raise (Exn IndexError "list index out of range")
        end
    | None =>
        match err with
        | Some e => if decide (exn_cls e = OSError) then Ok None else Raise e
        | None => Ok None
        end
    end
  else Ok None.

Definition RUST_STD : list string := ["std"; "core"; "alloc"; "proc_macro"].

Definition is_internal_import (target root source_file : string)
    (lang : option language) : result bool :=
  match (match lang with None => detect_language source_file | _ => lang end) with
  | Some python =>
      if Py.startswith target "." then Ok true
      else
        let top := first_piece (Py.split target ".") in
        if bool_decide (top ∈ _PYTHON_STDLIB) then Ok false
        else Ok (isdir (posixpath.join root [top])
                 || isfile (posixpath.join root [top +:+ ".py"]))
  | Some javascript | Some typescript =>
      Ok (Py.startswith target "." || Py.startswith target "/")
  | Some go =>
      module_path ← go_module_path root;
      match module_path with
      | Some module_path => Ok (Py.startswith target module_path)
      | None => Ok false
      end
  | Some rust =>
      if Py.startswith target "crate::" || Py.startswith target "super::"
         || Py.startswith target "self::"
      then Ok true
      else
        let top := first_piece (Py.split target "::") in
        Ok (negb (bool_decide (top ∈ RUST_STD)))
  | None => Ok false
  end.

Fixpoint count_leading_dots (s : string) : nat :=
  match s with
  | String "." s' => S (count_leading_dots s')
  | _ => 0
  end.

Definition _resolve_python_import (target source_file root : string)
    : option string :=
  let '(module_part, base) :=
    if Py.startswith target "." then
      let dots := count_leading_dots target in
      (Py.drop dots target,
       Nat.iter (dots - 1) posixpath.dirname (posixpath.dirname source_file))
    else (target, root) in
  let parts := if decide (module_part = "") then [] else Py.split module_part "." in
  let path := posixpath.join base parts in
  let init := posixpath.join path ["__init__.py"] in
  if isfile init then Some init
  else
    let mod_ := path +:+ ".py" in
    if isfile mod_ then Some mod_ else None.

Definition _resolve_js_import (target source_file root : string)
    (lang : language) : option string :=
  if negb (Py.startswith target ".") && negb (Py.startswith target "/") then None
  else
    let base := if Py.startswith target "." then posixpath.dirname source_file
                else root in
    let resolved := posixpath.normpath (posixpath.join base [target]) in
    if isfile resolved then Some resolved
    else
      let exts := if decide (lang = typescript)
                  then [".ts"; ".tsx"; ".js"; ".jsx"; ".mjs"; ".cjs"]
                  else [".js"; ".jsx"; ".mjs"; ".cjs"; ".ts"; ".tsx"] in
      match find isfile ((λ ext, resolved +:+ ext) <$> exts) with
      | Some candidate => Some candidate
      | None =>
          find isfile ((λ ext, posixpath.join resolved ["index" +:+ ext]) <$> exts)
      end.

Definition _resolve_go_import (target root : string) : result (option string) :=
  module_path ← go_module_path root;
  match module_path with
  | Some module_path =>
      if Py.startswith target module_path then
        let rel := Py.lstrip_char "/" (Py.drop (String.length module_path) target) in
        let pkg_dir := posixpath.join root [rel] in
        if isdir pkg_dir then Ok (Some pkg_dir) else Ok None
      else Ok None
  | None => Ok None
  end.

Definition _resolve_rust_import (target source_file root : string)
    : option string :=
  match Py.split (Py.replace target "::" "/") "/" with
  | [] => None
  | p0 :: parts =>
      let base :=
        if decide (p0 = "crate") then Some (posixpath.join root ["src"])
        else if decide (p0 = "super")
             then Some (posixpath.dirname (posixpath.dirname source_file))
        else if decide (p0 = "self") then Some (posixpath.dirname source_file)
        else None in
      match base with
      | None => None
      | Some base =>
          let path := posixpath.join base parts in
          if isfile (path +:+ ".rs") then Some (path +:+ ".rs")
          else
            let mod_rs := posixpath.join path ["mod.rs"] in
            if isfile mod_rs then Some mod_rs else None
      end
  end.

Definition resolve_import_to_file (target source_file root : string)
    (lang : option language) : result (option string) :=
  match (match lang with None => detect_language source_file | _ => lang end) with
  | Some python => Ok (_resolve_python_import target source_file root)
  | Some ((javascript | typescript) as l) =>
      Ok (_resolve_js_import target source_file root l)
  | Some go => _resolve_go_import target root
  | Some rust => Ok (_resolve_rust_import target source_file root)
  | None => Ok None
  end.

End imports.
End imports.

(* ===================================================================== *)
(** * circular-deps.py *)
(* ===================================================================== *)

Module ParseError.
Record t := mk { file : string; error : string }.
End ParseError.

Module Cycle.
Record t := mk { files : list string; length : nat }.
End Cycle.

Module GodModule.
Record t := mk {
  file : string;
  importer_count : nat;
  importers : list string;
  median_in_degree : Qc;
  threshold : Qc;
}.
End GodModule.

Module LayeringViolation.
Record t := mk {
  source : string;
  source_layer : Z;
  target : string;
  target_layer : Z;
  description : string;
}.
End LayeringViolation.

Module GraphStats.
Record t := mk {
  total_files : nat;
  total_edges : nat;
  avg_imports_per_file : Qc;
}.
End GraphStats.

Module Report.
Record t := mk {
  graph_stats : GraphStats.t;
  cycles : list Cycle.t;
  god_modules : list GodModule.t;
  layering_violations : list LayeringViolation.t;
  errors : list ParseError.t;
}.
End Report.

(** [Dict[str, Set[str]]] *)
Abbreviation graph := (dict (gset string)).

(** The key [lambda x: -x[1]] of the sort of [in_degrees.items()]. *)
Definition degree_desc (x y : string * nat) : Prop := y.2 ≤ x.2.
#[global] Instance degree_desc_dec : RelDecision degree_desc.
Proof. intros x y. unfold degree_desc. apply _. Defined.

Module circular_deps.
Import imports.

Definition LAYER_KEYWORDS : dict Z :=
  [ ("utils", 0); ("util", 0); ("helpers", 0); ("helper", 0); ("lib", 0);
    ("common", 0); ("shared", 0);
    ("core", 1); ("models", 1); ("types", 1); ("schemas", 1); ("entities", 1);
    ("services", 2); ("tools", 2); ("providers", 2); ("repositories", 2);
    ("repo", 2);
    ("agents", 3); ("handlers", 3); ("controllers", 3); ("views", 3);
    ("routes", 3);
    ("orchestration", 4); ("pipeline", 4); ("workflows", 4); ("app", 4);
    ("commands", 4);
    ("config", 0); ("settings", 0); ("constants", 0);
    ("tests", -1); ("test", -1); ("__tests__", -1); ("spec", -1) ]%Z.

(** The loop of [_infer_layer] over [Path(file_path).parts]. *)
Fixpoint first_layer (parts : list string) : option Z :=
  match parts with
  | [] => None
  | part :: parts' =>
      match dict_get LAYER_KEYWORDS (Py.lower part) with
      | Some layer => Some layer
      | None => first_layer parts'
      end
  end.

Definition _infer_layer (file_path : string) : option Z :=
  first_layer (posixpath.parts file_path).

(** The loop of [_layer_name]. *)
Fixpoint first_layer_part (parts : list string) : option string :=
  match parts with
  | [] => None
  | part :: parts' =>
      if dict_mem LAYER_KEYWORDS (Py.lower part) then Some part
      else first_layer_part parts'
  end.

Definition _layer_name (file_path : string) : string :=
  default "unknown" (first_layer_part (posixpath.parts file_path)).

(** The state of [tarjan_scc] that [strongconnect] closes over. [stack] is
    kept with its top, the end of the Python list, at the head. *)
Record tarjan_state := TarjanState {
  index_counter : nat;
  stack : list string;
  on_stack : gset string;
  index : gmap string nat;
  lowlink : gmap string nat;
  sccs : list (list string);
}.

(** [d[k]] *)
Definition getitem (d : gmap string nat) (k : string) : result nat :=
  match d !! k with
  | Some v => Ok v
  | None => Raise (Exn KeyError k)
  end.

Definition set_lowlink (st : tarjan_state) (k : string) (v : nat) : tarjan_state :=
  {| index_counter := index_counter st; stack := stack st;
     on_stack := on_stack st; index := index st;
     lowlink := <[k := v]> (lowlink st); sccs := sccs st |}.

(** The [while True] loop that pops a component off the stack. *)
Fixpoint pop_scc (node : string) (stack : list string) (on_stack : gset string)
    (scc : list string) : result (list string * gset string * list string) :=
  match stack with
  | [] => Raise (Exn IndexError "pop from empty list")
  | w :: stack' =>
      let on_stack := on_stack ∖ {[w]} in
      let scc := scc ++ [w] in
      if decide (w = node) then Ok (stack', on_stack, scc)
      else pop_scc node stack' on_stack scc
  end.

(** The state queue of the breadth-first search of
    [extract_cycles_from_scc]. *)
Record bfs_state := BfsState {
  queue : list (string * list string);
  visited : gset string;
  found : bool;
  cycles : list (list string);
  seen_cycle_sets : list (gset string);
}.

Section circular_deps.
Context `{!Runtime} `{!SetOrder}.

(** ** Graph building *)

(** The body of [for imp in imports]. *)
Definition add_import (root fpath rel : string) (lang : language)
    (g : graph * graph) (imp : Import) : result (graph * graph) :=
  let '(forward, reverse) := g in
  if is_type_only imp then Ok g
  else
    internal ← is_internal_import (target imp) root fpath (Some lang);
    if negb internal then Ok g
    else
      resolved ← resolve_import_to_file (target imp) fpath root (Some lang);
      match resolved with
      | None => Ok g
      | Some resolved =>
          let target_rel := posixpath.relpath getcwd resolved root in
          let forward := dict_add forward rel target_rel in
          let reverse := dict_add reverse target_rel rel in
          let forward := if dict_mem forward target_rel then forward
                         else dict_set forward target_rel ∅ in
          Ok (forward, reverse)
      end.

(** The body of [for fpath in walk_source_files(...)]. *)
Definition add_file (root : string)
    (st : graph * graph * list ParseError.t) (fpath : string)
    : result (graph * graph * list ParseError.t) :=
  let '(forward, reverse, errors) := st in
  match detect_language fpath with
  | None => Ok st
  | Some lang =>
      let rel := posixpath.relpath getcwd fpath root in
      let forward := if dict_mem forward rel then forward
                     else dict_set forward rel ∅ in
      match extract_imports fpath (Some lang) with
      | Raise e =>
          Ok (forward, reverse, errors ++ [ParseError.mk rel (exn_msg e)])
      | Ok imports =>
          g ← foldlM (add_import root fpath rel lang) imports (forward, reverse);
          Ok (g, errors)
      end
  end.

Definition build_import_graph (root : string) (ignore_patterns : list string)
    : result (graph * graph * list ParseError.t) :=
  foldlM (add_file root)
    (ignore.walk_source_files root ignore_patterns None) ([], [], []).

(** ** Tarjan's strongly connected components *)

(** [strongconnect(node)]; [depth] is the number of nested calls the
    recursion limit still allows. *)
Fixpoint strongconnect (depth : nat) (g : graph) (node : string)
    (st : tarjan_state) : result tarjan_state :=
  match depth with
  | 0 => Raise (Exn RecursionError "maximum recursion depth exceeded")
  | S depth' =>
      let st :=
        {| index_counter := S (index_counter st);
           stack := node :: stack st;
           on_stack := {[node]} ∪ on_stack st;
           index := <[node := index_counter st]> (index st);
           lowlink := <[node := index_counter st]> (lowlink st);
           sccs := sccs st |} in
      st ← (fix visit (neighbors : list string) (st : tarjan_state)
              : result tarjan_state :=
              match neighbors with
              | [] => Ok st
              | neighbor :: neighbors' =>
                  st ← match index st !! neighbor with
                       | None =>
                           st ← strongconnect depth' g neighbor st;
                           l_node ← getitem (lowlink st) node;
                           l_neighbor ← getitem (lowlink st) neighbor;
                           Ok (set_lowlink st node (l_node `min` l_neighbor))
                       | Some i_neighbor =>
                           if decide (neighbor ∈ on_stack st) then
                             l_node ← getitem (lowlink st) node;
                             Ok (set_lowlink st node (l_node `min` i_neighbor))
                           else Ok st
                       end;
                  visit neighbors' st
              end) (set_iter (dict_get_set g node)) st;
      l_node ← getitem (lowlink st) node;
      i_node ← getitem (index st) node;
      if decide (l_node = i_node) then
        '(stack', on_stack', scc) ← pop_scc node (stack st) (on_stack st) [];
        Ok {| index_counter := index_counter st;
              stack := stack';
              on_stack := on_stack';
              index := index st;
              lowlink := lowlink st;
              sccs := if decide (1 < length scc) then sccs st ++ [scc]
                      else sccs st |}
      else Ok st
  end.

(** [max(10000, len(graph) * 2)], the limit [tarjan_scc] sets. *)
Definition recursion_limit (g : graph) : nat :=
  Nat.max (100 * 100) (length g * 2).

Definition tarjan_scc (g : graph) : result (list (list string)) :=
  st ← foldlM (λ st node,
          match index st !! node with
          | None => strongconnect (recursion_limit g) g node st
          | Some _ => Ok st
          end)
        (dict_keys g)
        {| index_counter := 0; stack := []; on_stack := ∅; index := ∅;
           lowlink := ∅; sccs := [] |};
  Ok (sccs st).

(** The [for neighbor in graph.get(current, set())] loop of the search
    from [start]; it stops at the first edge back to [start]. *)
Fixpoint scan_neighbors (start : string) (scc_set : gset string)
    (path : list string) (neighbors : list string) (st : bfs_state) : bfs_state :=
  match neighbors with
  | [] => st
  | neighbor :: neighbors' =>
      if decide (neighbor = start ∧ 1 < length path) then
        let cycle := path in
        let cycle_key : gset string := list_to_set cycle in
        let fresh := bool_decide (cycle_key ∉ seen_cycle_sets st) in
        {| queue := queue st; visited := visited st; found := true;
           cycles := if fresh then cycles st ++ [cycle] else cycles st;
           seen_cycle_sets := if fresh then seen_cycle_sets st ++ [cycle_key]
                              else seen_cycle_sets st |}
      else if decide (neighbor ∈ scc_set ∧ neighbor ∉ visited st) then
        scan_neighbors start scc_set path neighbors'
          {| queue := queue st ++ [(neighbor, path ++ [neighbor])];
             visited := {[neighbor]} ∪ visited st; found := found st;
             cycles := cycles st; seen_cycle_sets := seen_cycle_sets st |}
      else scan_neighbors start scc_set path neighbors' st
  end.

(** The [while queue and not found] loop. *)
Fixpoint bfs_loop (fuel : nat) (g : graph) (start : string)
    (scc_set : gset string) (st : bfs_state) : result bfs_state :=
  match queue st with
  | [] => Ok st
  | (current, path) :: queue' =>
      if found st then Ok st
      else
        match fuel with
        | 0 => Raise (Exn FuelExhausted "while queue and not found")
        | S fuel' =>
            bfs_loop fuel' g start scc_set
              (scan_neighbors start scc_set path
                 (set_iter (dict_get_set g current))
                 {| queue := queue'; visited := visited st; found := found st;
                    cycles := cycles st;
                    seen_cycle_sets := seen_cycle_sets st |})
        end
  end.

Definition extract_cycles_from_scc (scc : list string) (g : graph)
    : result (list (list string)) :=
  let scc_set : gset string := list_to_set scc in
  if decide (length scc ≤ 5) then
    r ← foldlM (λ (acc : list (list string) * list (gset string)) start,
           st ← bfs_loop (size scc_set) g start scc_set
                  {| queue := [(start, [start])]; visited := {[start]};
                     found := false; cycles := acc.1;
                     seen_cycle_sets := acc.2 |};
           Ok (cycles st, seen_cycle_sets st))
         scc ([], []);
    Ok (if decide (r.1 = []) then [scc] else r.1)
  else Ok [scc].

(** ** God module detection *)

Definition detect_god_modules (reverse_graph : graph)
    (threshold_multiplier : Qc) (min_importers : Z) : list GodModule.t :=
  let in_degrees := (λ kv : string * gset string, (kv.1, size kv.2)) <$> reverse_graph in
  match in_degrees with
  | [] => []
  | _ =>
      let values := in_degrees.*2 in
      let median_degree := median values in
      let threshold := Qc_max (median_degree * threshold_multiplier)%Qc
                         (Qc_of_Z min_importers) in
      omap (λ md : string * nat,
        if decide (threshold < Qc_of_Z (Z.of_nat md.2))%Qc then
          Some (GodModule.mk md.1 md.2
                  (sorted String.le (set_iter (dict_get_set reverse_graph md.1)))
                  (round1 median_degree) (round1 threshold))
        else None) (sorted degree_desc in_degrees)
  end.

(** ** Layering violation detection *)

Definition is_layer (l : option Z) : bool :=
  match l with
  | None => false
  | Some l => negb (bool_decide (l = -1)%Z)
  end.

Definition detect_layering_violations (g : graph) : list LayeringViolation.t :=
  flat_map (λ st : string * gset string,
    let '(source, targets) := st in
    match _infer_layer source with
    | Some source_layer =>
        if bool_decide (source_layer = -1)%Z then []
        else
          omap (λ target,
            match _infer_layer target with
            | Some target_layer =>
                if bool_decide (target_layer = -1)%Z then None
                else if bool_decide (source_layer < target_layer)%Z then
                  Some (LayeringViolation.mk source source_layer target target_layer
                          ("Lower layer '" +:+ _layer_name source
                           +:+ "' imports from higher layer '"
                           +:+ _layer_name target +:+ "'"))
                else None
            | None => None
            end) (set_iter targets)
    | None => []
    end) g.

(** ** Main *)

(** The "Cycle detection" block of [analyze]. *)
Definition analyze_cycles (forward_graph : graph) : result (list Cycle.t) :=
  sccs ← tarjan_scc forward_graph;
  foldlM (λ cycles scc,
      paths ← extract_cycles_from_scc scc forward_graph;
      Ok (cycles ++ ((λ cycle_path, Cycle.mk cycle_path (length cycle_path))
                       <$> paths)))
    sccs [].

Definition analyze (root : string) (ignore_file : option string)
    : result Report.t :=
  patterns ← ignore.load_ignore_patterns ignore_file None;
  '(forward_graph, reverse_graph, errors) ← build_import_graph root patterns;
  cycles ← analyze_cycles forward_graph;
  let god_modules := detect_god_modules reverse_graph (Qc_of_Z 3) 5 in
  let layering_violations := detect_layering_violations forward_graph in
  let total_files := length forward_graph in
  let total_edges := sum_list (size <$> dict_values forward_graph) in
  Ok (Report.mk
        (GraphStats.mk total_files total_edges
           (if decide (total_files = 0) then Qc_of_Z 0
            else round1 (Qc_of_Z (Z.of_nat total_edges)
                         / Qc_of_Z (Z.of_nat total_files))%Qc))
        cycles god_modules layering_violations errors).

End circular_deps.
End circular_deps.

(* ===================================================================== *)
(** * What the claims speak of *)
(* ===================================================================== *)

Section graph_spec.
Context `{!Runtime}.
Import imports.
Variable root : string.

(** The node of a file: its path relative to the root. *)
Definition node_of (fpath : string) : string :=
  posixpath.relpath getcwd fpath root.

(** [a → b] comes from an import of one of [files]: an import that is not
    type-only, classified internal, and resolved to the file of node [b]. *)
Definition edge_from (files : list string) (a b : string) : Prop :=
  ∃ fpath lang imps imp resolved,
    fpath ∈ files ∧ detect_language fpath = Some lang ∧ a = node_of fpath ∧
    extract_imports fpath (Some lang) = Ok imps ∧ imp ∈ imps ∧
    is_type_only imp = false ∧
    is_internal_import (target imp) root fpath (Some lang) = Ok true ∧
    resolve_import_to_file (target imp) fpath root (Some lang) = Ok (Some resolved) ∧
    b = node_of resolved.

(** [k] is the node of one of [files], of a recognised language. *)
Definition registered (files : list string) (k : string) : Prop :=
  ∃ fpath lang,
    fpath ∈ files ∧ detect_language fpath = Some lang ∧ k = node_of fpath.

(** [e] records an exception that [extract_imports] raised on one of
    [files]. *)
Definition error_from (files : list string) (e : ParseError.t) : Prop :=
  ∃ fpath lang exn,
    fpath ∈ files ∧ detect_language fpath = Some lang ∧
    extract_imports fpath (Some lang) = Raise exn ∧
    e = ParseError.mk (node_of fpath) (exn_msg exn).

(** The invariant of the two loops of [build_import_graph], [files] being
    the files gone through. *)
Record graph_inv (files : list string) (forward reverse : graph) : Prop := {
  inv_nodup_forward : NoDup (dict_keys forward);
  inv_nodup_reverse : NoDup (dict_keys reverse);
  inv_transpose : ∀ a b,
    b ∈ dict_get_set forward a ↔ a ∈ dict_get_set reverse b;
  inv_edge : ∀ a b, b ∈ dict_get_set forward a → edge_from files a b;
  inv_targets : ∀ a b, b ∈ dict_get_set forward a → b ∈ dict_keys forward;
  inv_registered : ∀ k, registered files k → k ∈ dict_keys forward;
  inv_keys : ∀ k, k ∈ dict_keys forward →
    registered files k ∨ ∃ a, k ∈ dict_get_set forward a;
  inv_reverse_keys : ∀ k, k ∈ dict_keys reverse →
    ∃ a, a ∈ dict_get_set reverse k;
}.
End graph_spec.

(* ===================================================================== *)
(** * Sample runtimes: small projects to run the analysis on *)
(* ===================================================================== *)

(** Iteration in the order of [elements], and in the opposite order. *)
Program Definition elements_order : SetOrder :=
  {| set_iter := elements |}.
Next Obligation. done. Qed.

Program Definition reversed_order : SetOrder :=
  {| set_iter := λ s, reverse (elements s) |}.
Next Obligation. intros s. apply reverse_Permutation. Qed.

Module Sample.
Import imports.

(** [fnmatch] on the patterns of the samples: a literal name, or a star
    followed by a literal suffix. *)
Definition fnmatch_simple (name pat : string) : bool :=
  match pat with
  | String "*" suffix => Py.endswith name suffix
  | _ => bool_decide (name = pat)
  end.

(** A project given by its directory tree, the text of its files, the
    trees [ast.parse] returns for the Python texts and the matches
    [_JS_IMPORT_RE] finds in the JavaScript lines. No [go.mod], no Rust. *)
Definition runtime (root : string) (tree : dirtree)
    (texts : dict string)
    (parses : dict (result (list ast.node)))
    (js_lines : dict (list js_match)) : Runtime :=
  {| getcwd := "/";
     listing := λ top, if decide (top = root) then tree else Dir [] [];
     isfile := λ p, dict_mem texts p;
     isdir := λ p, false;
     read_source := λ p, dict_get texts p;
     read_lines := λ p, ([], Some (Exn OSError "No such file or directory"));
     fnmatch := fnmatch_simple;
     ast_parse := λ source filename,
       default (Raise (Exn SyntaxError "invalid syntax")) (dict_get parses source);
     js_import_finditer := λ line, default [] (dict_get js_lines line);
     js_type_import_search := λ line, Py.startswith line "import type ";
     go_import_single_finditer := λ _, [];
     go_import_block_finditer := λ _, [];
     go_import_line_search := λ _, None;
     rust_use_finditer := λ _, [] |}.

Definition nl : string := String "010" "".

(** Three Python modules: [a] imports [b] and [c], each of which imports
    [a] back. *)
Definition star : Runtime :=
  runtime "/r" (Dir [] ["a.py"; "b.py"; "c.py"])
    [ ("/r/a.py", "import b" +:+ nl +:+ "import c" +:+ nl);
      ("/r/b.py", "import a" +:+ nl);
      ("/r/c.py", "import a" +:+ nl) ]
    [ ("import b" +:+ nl +:+ "import c" +:+ nl,
         Ok [ ast.Import [ast.Alias "b" None] 1 (Some 1);
              ast.Import [ast.Alias "c" None] 2 (Some 2) ]);
      ("import a" +:+ nl, Ok [ ast.Import [ast.Alias "a" None] 1 (Some 1) ]) ]
    [].

(** A Python file that does not parse: no tree is registered for its
    text, so [ast_parse] raises [SyntaxError]; next to it a file that does. *)
Definition broken : Runtime :=
  runtime "/r" (Dir [] ["bad.py"; "ok.py"])
    [ ("/r/bad.py", "def (" +:+ nl); ("/r/ok.py", "import bad" +:+ nl) ]
    [ ("import bad" +:+ nl, Ok [ ast.Import [ast.Alias "bad" None] 1 (Some 1) ]) ]
    [].

(** A JavaScript file that imports, by its exact path, a C file next to
    it. *)
Definition native : Runtime :=
  runtime "/r" (Dir [] ["a.js"; "b.c"])
    [ ("/r/a.js", "import './b.c'" +:+ nl); ("/r/b.c", "int x;" +:+ nl) ]
    []
    [ ("import './b.c'", [ JsMatch None None (Some "./b.c") None None ]) ].

(** A Python file whose only import sits under [if TYPE_CHECKING:]. *)
Definition typed : Runtime :=
  let text := "if TYPE_CHECKING:" +:+ nl +:+ "    import b" +:+ nl in
  runtime "/r" (Dir [] ["a.py"; "b.py"])
    [ ("/r/a.py", text); ("/r/b.py", "") ]
    [ (text, Ok [ ast.If (ast.Name "TYPE_CHECKING")
                    [ ast.Import [ast.Alias "b" None] 2 (Some 2) ] []
                    1 (Some 2) ]);
      ("", Ok []) ]
    [].

End Sample.


(* ===================================================================== *)
(** * Further notions, for the properties beyond the claims *)
(* ===================================================================== *)

Section walk_spec.
Context `{!Runtime}.
Variables (root : string) (patterns : list string).

(** The directories the walk from [top] goes into: [top] itself, and every
    sub-directory that is not ignored of a directory it goes into. *)
Inductive walked_dir (top : string) (t : dirtree) : string → dirtree → Prop :=
  | walked_top : walked_dir top t top t
  | walked_sub dirpath dirnames filenames d sub :
      walked_dir top t dirpath (Dir dirnames filenames) →
      (d, sub) ∈ dirnames →
      ignore.should_ignore (posixpath.join dirpath [d]) patterns root = false →
      walked_dir top t (posixpath.join dirpath [d]) sub.
End walk_spec.
(* ===================================================================== *)
(** * Verification *)
(* ===================================================================== *)

(** ** Loops that may raise *)

Lemma bind_Ok {A B} (m : result A) (k : A → result B) (b : B) :
  m ≫= k = Ok b ↔ ∃ a, m = Ok a ∧ k a = Ok b.
Proof.
  destruct m as [a|e]; simpl.
  - split; [eauto | by intros (? & [= ->] & ?)].
  - split; [done | by intros (? & ? & ?)].
Qed.

(** An invariant of a [for] loop: it holds of the items seen so far. *)
Lemma foldlM_inv {A B} (P : list A → B → Prop) (f : B → A → result B)
    (l : list A) (b b' : B) :
  P [] b →
  (∀ pre x c c', x ∈ l → P pre c → f c x = Ok c' → P (pre ++ [x]) c') →
  foldlM f l b = Ok b' → P l b'.
Proof.
  intros Hb Hstep.
  assert (∀ pre c, (∀ x, x ∈ l → x ∈ l) →
    ∀ rest, pre ++ rest = l → P pre c → foldlM f rest c = Ok b' → P l b') as Hgen.
  { intros pre c _ rest. revert pre c.
    induction rest as [|x rest IH]; intros pre c Hl Hc Hrun; simpl in Hrun.
    - injection Hrun as <-. by rewrite app_nil_r in Hl; subst.
    - destruct (f c x) as [c'|e] eqn:Hf; [|done].
      apply (IH (pre ++ [x]) c'); [by rewrite <-app_assoc | | done].
      apply (Hstep pre x c c'); [|done..].
      subst l. set_solver. }
  by apply (Hgen [] b).
Qed.

Lemma foldlM_app {A B} (f : B → A → result B) (l1 l2 : list A) (b : B) :
  foldlM f (l1 ++ l2) b = foldlM f l1 b ≫= foldlM f l2.
Proof.
  revert b. induction l1 as [|x l1 IH]; intros b; simpl; [done|].
  destruct (f b x); simpl; [apply IH | done].
Qed.

(** ** Dicts *)

Section dict_lemmas.
Context {V : Type}.
Implicit Types (d : dict V) (k : string) (v : V).

Lemma dict_get_Some_elem d k v : dict_get d k = Some v → (k, v) ∈ d.
Proof.
  induction d as [|[k' v'] d IH]; simpl; [done|].
  case_decide as Hk.
  - intros [= ->]. subst. left.
  - intros. right. by apply IH.
Qed.

Lemma dict_get_is_Some d k : is_Some (dict_get d k) ↔ k ∈ dict_keys d.
Proof.
  unfold dict_keys. induction d as [|[k' v'] d IH]; csimpl.
  - split; [by intros [? ?] | by intros ?%elem_of_nil].
  - case_decide as Hk; rewrite elem_of_cons; csimpl.
    + split; [by left | eauto].
    + rewrite IH. naive_solver.
Qed.

Lemma dict_mem_keys d k : dict_mem d k = true ↔ k ∈ dict_keys d.
Proof. unfold dict_mem. by rewrite bool_decide_eq_true, dict_get_is_Some. Qed.

Lemma dict_get_None d k : dict_get d k = None ↔ k ∉ dict_keys d.
Proof. by rewrite <-dict_get_is_Some, eq_None_not_Some. Qed.

Lemma dict_elem_get d k v :
  NoDup (dict_keys d) → (k, v) ∈ d → dict_get d k = Some v.
Proof.
  unfold dict_keys. induction d as [|[k' v'] d IH]; csimpl; intros Hnd Hin.
  - by apply elem_of_nil in Hin.
  - apply list.NoDup_cons in Hnd as [Hk' Hnd].
    apply elem_of_cons in Hin as [[= <- <-]|Hin].
    + by rewrite decide_True.
    + rewrite decide_False; [by apply IH|].
      intros <-. apply Hk'. apply list_elem_of_fmap. by exists (k', v).
Qed.

Lemma dict_get_set_eq d k v : dict_get (dict_set d k v) k = Some v.
Proof.
  induction d as [|[k' v'] d IH]; simpl.
  - by rewrite decide_True.
  - case_decide; simpl; [by rewrite decide_True|]. by rewrite decide_False.
Qed.

Lemma dict_get_set_ne d k k' v :
  k ≠ k' → dict_get (dict_set d k v) k' = dict_get d k'.
Proof.
  intros Hne. induction d as [|[k'' v''] d IH]; simpl.
  - by rewrite decide_False.
  - case_decide; simpl; subst.
    + by rewrite !decide_False.
    + by rewrite IH.
Qed.

Lemma dict_keys_set d k v :
  dict_keys (dict_set d k v)
  = if dict_mem d k then dict_keys d else dict_keys d ++ [k].
Proof.
  unfold dict_keys, dict_mem. induction d as [|[k' v'] d IH]; csimpl; [done|].
  case_decide; csimpl; subst; [done|].
  rewrite IH. by destruct (bool_decide _).
Qed.

Lemma elem_of_dict_keys_set d k k' v :
  k' ∈ dict_keys (dict_set d k v) ↔ k' = k ∨ k' ∈ dict_keys d.
Proof.
  rewrite dict_keys_set. destruct (dict_mem d k) eqn:Hm.
  - apply dict_mem_keys in Hm. naive_solver.
  - rewrite elem_of_app, list_elem_of_singleton. naive_solver.
Qed.

Lemma NoDup_dict_keys_set d k v :
  NoDup (dict_keys d) → NoDup (dict_keys (dict_set d k v)).
Proof.
  intros Hnd. rewrite dict_keys_set. destruct (dict_mem d k) eqn:Hm; [done|].
  apply list.NoDup_app. split_and!; [done| |apply NoDup_singleton].
  intros x Hx ->%list_elem_of_singleton.
  apply dict_mem_keys in Hx. congruence.
Qed.
End dict_lemmas.

Lemma dict_get_set_dict_add_eq (d : graph) k x :
  dict_get_set (dict_add d k x) k = {[x]} ∪ dict_get_set d k.
Proof. unfold dict_get_set at 1, dict_add. by rewrite dict_get_set_eq. Qed.

Lemma dict_get_set_dict_add_ne (d : graph) k k' x :
  k ≠ k' → dict_get_set (dict_add d k x) k' = dict_get_set d k'.
Proof. intros. unfold dict_get_set, dict_add. by rewrite dict_get_set_ne. Qed.

Lemma elem_of_dict_get_set_add (d : graph) k x k' y :
  y ∈ dict_get_set (dict_add d k x) k'
  ↔ (k' = k ∧ y = x) ∨ y ∈ dict_get_set d k'.
Proof.
  destruct (decide (k = k')) as [->|Hne].
  - rewrite dict_get_set_dict_add_eq. set_solver.
  - rewrite dict_get_set_dict_add_ne by done. naive_solver.
Qed.

Lemma elem_of_dict_get_set_register (d : graph) k k' y :
  y ∈ dict_get_set (if dict_mem d k then d else dict_set d k ∅) k'
  ↔ y ∈ dict_get_set d k'.
Proof.
  destruct (dict_mem d k) eqn:Hm; [done|].
  unfold dict_get_set. destruct (decide (k = k')) as [->|Hne].
  - rewrite dict_get_set_eq.
    assert (dict_get d k' = None) as ->; [|done].
    apply dict_get_None. intros ?%dict_mem_keys. congruence.
  - by rewrite dict_get_set_ne.
Qed.

Lemma dict_keys_register (d : graph) k k' :
  k' ∈ dict_keys (if dict_mem d k then d else dict_set d k ∅)
  ↔ k' = k ∨ k' ∈ dict_keys d.
Proof.
  destruct (dict_mem d k) eqn:Hm.
  - apply dict_mem_keys in Hm. naive_solver.
  - apply elem_of_dict_keys_set.
Qed.

Lemma NoDup_dict_keys_register (d : graph) k :
  NoDup (dict_keys d) →
  NoDup (dict_keys (if dict_mem d k then d else dict_set d k ∅)).
Proof. destruct (dict_mem d k); [done|]. apply NoDup_dict_keys_set. Qed.

Lemma elem_of_dict_get_set_keys (d : graph) k y :
  y ∈ dict_get_set d k → k ∈ dict_keys d.
Proof.
  unfold dict_get_set. destruct (dict_get d k) eqn:Hg; simpl.
  - intros _. apply dict_get_is_Some. eauto.
  - set_solver.
Qed.

(** ** The graph builder *)

Section builder.
Context `{!Runtime}.
Import imports circular_deps.
Variable root : string.

Lemma edge_from_mono files files' a b :
  files ⊆ files' → edge_from root files a b → edge_from root files' a b.
Proof.
  intros Hsub (fpath & lang & imps & imp & resolved & Hin & ?).
  exists fpath, lang, imps, imp, resolved. split; [by apply Hsub|done].
Qed.

Lemma registered_mono files files' k :
  files ⊆ files' → registered root files k → registered root files' k.
Proof.
  intros Hsub (fpath & lang & Hin & ?).
  exists fpath, lang. split; [by apply Hsub|done].
Qed.

Lemma error_from_mono files files' e :
  files ⊆ files' → error_from root files e → error_from root files' e.
Proof.
  intros Hsub (fpath & lang & exn & Hin & ?).
  exists fpath, lang, exn. split; [by apply Hsub|done].
Qed.

Lemma graph_inv_nil : graph_inv root [] [] [].
Proof.
  split; try (by constructor); try set_solver.
  - intros k (? & ? & ?%elem_of_nil & ?). done.
Qed.

Lemma registered_snoc files fpath k :
  registered root (files ++ [fpath]) k ↔
  registered root files k ∨
  (∃ lang, detect_language fpath = Some lang) ∧ k = node_of root fpath.
Proof.
  split.
  - intros (f & lang & [Hin| ->%list_elem_of_singleton]%elem_of_app & Hl & ->).
    + left. by exists f, lang.
    + right. eauto.
  - intros [Hr|[[lang Hl] ->]].
    + eapply registered_mono; [|done]. set_solver.
    + exists fpath, lang. set_solver.
Qed.

(** A file of no recognised language leaves the invariant as it is. *)
Lemma graph_inv_skip files fpath forward reverse :
  detect_language fpath = None →
  graph_inv root files forward reverse →
  graph_inv root (files ++ [fpath]) forward reverse.
Proof.
  intros Hl [].
  split; try done.
  - intros a b Hab. eapply edge_from_mono; [|eauto]. set_solver.
  - intros k [Hk|[[lang ?] _]]%registered_snoc; [eauto | congruence].
  - intros k Hk. destruct (inv_keys0 k Hk) as [Hr|?]; [|eauto].
    left. apply registered_snoc. eauto.
Qed.

(** Registering the node of a file of a recognised language. *)
Lemma graph_inv_register files fpath lang forward reverse :
  detect_language fpath = Some lang →
  graph_inv root files forward reverse →
  let rel := node_of root fpath in
  graph_inv root (files ++ [fpath])
    (if dict_mem forward rel then forward else dict_set forward rel ∅) reverse.
Proof.
  intros Hl [] rel.
  split; try done.
  - by apply NoDup_dict_keys_register.
  - intros a b. rewrite elem_of_dict_get_set_register. apply inv_transpose0.
  - intros a b. rewrite elem_of_dict_get_set_register. intros Hab.
    eapply edge_from_mono; [|eauto]. set_solver.
  - intros a b. rewrite elem_of_dict_get_set_register, dict_keys_register. eauto.
  - intros k. rewrite dict_keys_register.
    intros [Hk|[_ ->]]%registered_snoc; eauto.
  - intros k. rewrite dict_keys_register. intros [->|Hk].
    + left. apply registered_snoc. eauto.
    + destruct (inv_keys0 k Hk) as [Hr|[a Ha]].
      * left. apply registered_snoc. eauto.
      * right. exists a. by rewrite elem_of_dict_get_set_register.
Qed.

(** One import of a file gone through keeps the invariant. *)
Lemma add_import_inv files fpath lang imps imp g g' :
  fpath ∈ files → detect_language fpath = Some lang →
  extract_imports fpath (Some lang) = Ok imps → imp ∈ imps →
  graph_inv root files g.1 g.2 →
  add_import root fpath (node_of root fpath) lang g imp = Ok g' →
  graph_inv root files g'.1 g'.2.
Proof.
  intros Hin Hl Himps Himp Hinv. destruct g as [forward reverse].
  unfold add_import. destruct (is_type_only imp) eqn:Hty; [by intros [= <-]|].
  intros (internal & Hint & Hrun)%bind_Ok.
  destruct internal; simpl in Hrun; [|by injection Hrun as <-].
  apply bind_Ok in Hrun as (resolved & Hres & Hrun).
  destruct resolved as [resolved|]; [|by injection Hrun as <-].
  injection Hrun as <-. simpl in *. destruct Hinv.
  set (rel := node_of root fpath).
  set (t := posixpath.relpath getcwd resolved root).
  assert (edge_from root files rel t) as Hedge.
  { by exists fpath, lang, imps, imp, resolved. }
  assert (rel ∈ dict_keys forward) as Hrel.
  { apply inv_registered0. by exists fpath, lang. }
  split.
  - apply NoDup_dict_keys_register. by apply NoDup_dict_keys_set.
  - by apply NoDup_dict_keys_set.
  - intros a b.
    rewrite elem_of_dict_get_set_register, !elem_of_dict_get_set_add.
    rewrite inv_transpose0. naive_solver.
  - intros a b.
    rewrite elem_of_dict_get_set_register, elem_of_dict_get_set_add.
    intros [[-> ->]|?]; eauto.
  - intros a b.
    rewrite elem_of_dict_get_set_register, elem_of_dict_get_set_add.
    rewrite dict_keys_register. unfold dict_add.
    rewrite elem_of_dict_keys_set. naive_solver.
  - intros k Hk. rewrite dict_keys_register. unfold dict_add.
    rewrite elem_of_dict_keys_set. eauto.
  - intros k. rewrite dict_keys_register. unfold dict_add at 1.
    rewrite elem_of_dict_keys_set. intros [->|[->|Hk]].
    + right. exists rel.
      rewrite elem_of_dict_get_set_register, elem_of_dict_get_set_add. eauto.
    + left. by exists fpath, lang.
    + destruct (inv_keys0 k Hk) as [?|[a Ha]]; [by left|].
      right. exists a.
      rewrite elem_of_dict_get_set_register, elem_of_dict_get_set_add. eauto.
  - intros k. unfold dict_add at 1. rewrite elem_of_dict_keys_set.
    intros [->|Hk].
    + exists rel. rewrite elem_of_dict_get_set_add. eauto.
    + destruct (inv_reverse_keys0 k Hk) as [a Ha].
      exists a. rewrite elem_of_dict_get_set_add. eauto.
Qed.

(** One file keeps the invariant, and the error list only grows by records
    of exceptions that [extract_imports] raised. *)
Lemma add_file_inv files fpath forward reverse errors forward' reverse' errors' :
  graph_inv root files forward reverse →
  (∀ e, e ∈ errors → error_from root files e) →
  add_file root (forward, reverse, errors) fpath = Ok (forward', reverse', errors') →
  graph_inv root (files ++ [fpath]) forward' reverse' ∧
  (∀ e, e ∈ errors' → error_from root (files ++ [fpath]) e).
Proof.
  intros Hinv Herr. unfold add_file.
  assert (∀ e, e ∈ errors → error_from root (files ++ [fpath]) e) as Herr'.
  { intros e He. eapply error_from_mono; [|eauto]. set_solver. }
  destruct (detect_language fpath) as [lang|] eqn:Hl.
  2:{ intros [= <- <- <-]. split; [by apply graph_inv_skip|done]. }
  pose proof (graph_inv_register _ _ _ _ _ Hl Hinv) as Hreg. simpl in Hreg.
  fold (node_of root fpath).
  destruct (extract_imports fpath (Some lang)) as [imps|exn] eqn:Hex.
  - intros ([f r] & Hrun & [= <- <- <-])%bind_Ok. split; [|done].
    refine (foldlM_inv (λ _ g, graph_inv root (files ++ [fpath]) g.1 g.2)
              _ _ _ (f, r) _ _ Hrun); [exact Hreg|].
    intros pre imp c c' Himp Hc Hstep.
    eapply (add_import_inv _ fpath lang imps imp c c'); eauto. set_solver.
  - intros [= <- <- <-]. split; [done|].
    intros e [He| ->%list_elem_of_singleton]%elem_of_app; [eauto|].
    exists fpath, lang, exn. set_solver.
Qed.

(** What holds once [build_import_graph] has returned. *)
Lemma build_import_graph_inv patterns forward reverse errors :
  build_import_graph root patterns = Ok (forward, reverse, errors) →
  let files := ignore.walk_source_files root patterns None in
  graph_inv root files forward reverse ∧
  (∀ e, e ∈ errors → error_from root files e).
Proof.
  intros Hrun files.
  apply (foldlM_inv
    (λ pre (st : graph * graph * list ParseError.t),
       graph_inv root pre st.1.1 st.1.2 ∧
       (∀ e, e ∈ st.2 → error_from root pre e))
    (add_file root) files ([], [], []) (forward, reverse, errors)).
  - split; [apply graph_inv_nil | by intros ? ?%elem_of_nil].
  - intros pre fpath [[f r] es] [[f' r'] es'] _ [Hinv Herr] Hstep.
    by apply (add_file_inv pre fpath f r es).
  - exact Hrun.
Qed.

(** A file whose imports are all type-only adds nothing. *)
Lemma add_import_type_only fpath rel lang imps g :
  Forall (λ imp, is_type_only imp = true) imps →
  foldlM (add_import root fpath rel lang) imps g = Ok g.
Proof.
  induction 1 as [|imp imps Hty _ IH]; simpl; [done|].
  unfold add_import at 1. destruct g as [forward reverse].
  by rewrite Hty.
Qed.

(** [extract_imports] raises only what [ast.parse] raised, a
    [SyntaxError] apart. *)
Lemma extract_imports_Raise fpath lang exn :
  extract_imports fpath (Some lang) = Raise exn →
  lang = python ∧ exn_cls exn ≠ SyntaxError ∧
  ∃ source, read_source fpath = Some source ∧ ast_parse source fpath = Raise exn.
Proof.
  unfold extract_imports.
  destruct (read_source fpath) as [source|]; [|done].
  destruct lang; try done.
  unfold _extract_python_imports.
  destruct (ast_parse source fpath) as [tree|e] eqn:Hp; [done|].
  case_decide; [done|]. intros [= ->]. eauto.
Qed.

Lemma extract_imports_SyntaxError fpath source exn :
  read_source fpath = Some source →
  ast_parse source fpath = Raise exn → exn_cls exn = SyntaxError →
  extract_imports fpath (Some python) = Ok [].
Proof.
  intros Hr Hp Hc. unfold extract_imports, _extract_python_imports.
  rewrite Hr, Hp. by rewrite decide_True.
Qed.

End builder.

(** C9. Once [build_import_graph] has returned: the reverse map is the exact
    transpose of the forward map; there are no parallel edges (each node has
    one adjacency set, a set); every edge comes from an import that is not
    type-only, was classified internal and was resolved, between the node of
    the importing file and the node of the resolved file; and every node of
    a forward adjacency set, every source of an edge and every key of the
    reverse map is a key of the forward map. *)
Theorem C9_graph_invariants `{!Runtime} (root : string) (patterns : list string)
    (forward reverse : graph) (errors : list ParseError.t) :
  circular_deps.build_import_graph root patterns = Ok (forward, reverse, errors) →
  (∀ a b, b ∈ dict_get_set forward a ↔ a ∈ dict_get_set reverse b) ∧
  (NoDup (dict_keys forward) ∧ NoDup (dict_keys reverse) ∧
   ∀ a, NoDup (elements (dict_get_set forward a))) ∧
  (∀ a b, b ∈ dict_get_set forward a →
     edge_from root (ignore.walk_source_files root patterns None) a b) ∧
  (∀ a b, b ∈ dict_get_set forward a →
     a ∈ dict_keys forward ∧ b ∈ dict_keys forward) ∧
  (∀ k, k ∈ dict_keys reverse → k ∈ dict_keys forward).
Proof.
  intros [[] _]%build_import_graph_inv.
  split_and!; try done.
  - intros a. apply NoDup_elements.
  - intros a b Hab. split; [by eapply elem_of_dict_get_set_keys | eauto].
  - intros k [a Ha]%inv_reverse_keys0.
    apply inv_transpose0 in Ha. eauto.
Qed.

Lemma C9_graph_invariants_witness :
  ∃ forward reverse errors,
    @circular_deps.build_import_graph Sample.star "/r" ignore.DEFAULT_IGNORE_PATTERNS
    = Ok (forward, reverse, errors) ∧
    (∀ a b, b ∈ dict_get_set forward a ↔ a ∈ dict_get_set reverse b) ∧
    (∀ k, k ∈ dict_keys reverse → k ∈ dict_keys forward).
Proof.
  destruct (@circular_deps.build_import_graph Sample.star "/r"
              ignore.DEFAULT_IGNORE_PATTERNS) as [[[f r] e]|e] eqn:Hrun.
  - exists f, r, e. split; [done|].
    pose proof (@C9_graph_invariants Sample.star _ _ _ _ _ Hrun) as (? & ? & ? & ? & ?).
    done.
  - vm_compute in Hrun. discriminate.
Defined.

(** C1 (the code departs from the claim). A Python file whose text makes
    [ast.parse] raise [SyntaxError]: [extract_imports] returns the empty list
    without raising; going through the file registers its node and leaves the
    maps and the error list as they were; and no entry of the error list of a
    whole run ever stems from a [SyntaxError], only from another exception of
    [ast.parse].  Extraction for the other languages never raises. *)
Theorem C1_syntax_error_is_swallowed `{!Runtime} (root : string)
    (patterns : list string) (forward reverse : graph)
    (errors : list ParseError.t) (fpath source : string) (exn : exn) :
  circular_deps.build_import_graph root patterns = Ok (forward, reverse, errors) →
  imports.detect_language fpath = Some imports.python →
  read_source fpath = Some source →
  ast_parse source fpath = Raise exn → exn_cls exn = SyntaxError →
  imports.extract_imports fpath (Some imports.python) = Ok [] ∧
  (∀ f r es,
     circular_deps.add_file root (f, r, es) fpath
     = Ok (if dict_mem f (node_of root fpath) then f
           else dict_set f (node_of root fpath) ∅, r, es)) ∧
  (∀ e, e ∈ errors →
     ∃ fpath' source' exn',
       fpath' ∈ ignore.walk_source_files root patterns None ∧
       read_source fpath' = Some source' ∧
       ast_parse source' fpath' = Raise exn' ∧ exn_cls exn' ≠ SyntaxError ∧
       e = ParseError.mk (node_of root fpath') (exn_msg exn')) ∧
  (∀ fpath' lang, lang ≠ imports.python →
     ∃ imps, imports.extract_imports fpath' (Some lang) = Ok imps).
Proof.
  intros Hrun Hl Hr Hp Hc.
  pose proof (extract_imports_SyntaxError fpath source exn Hr Hp Hc) as Hex.
  split_and!; [done| | |].
  - intros f r es. unfold circular_deps.add_file. by rewrite Hl, Hex.
  - apply build_import_graph_inv in Hrun as [_ Herr].
    intros e (fpath' & lang & exn' & Hin & _ & Hraise & ->)%Herr.
    apply extract_imports_Raise in Hraise as (-> & ? & source' & ? & ?).
    by exists fpath', source', exn'.
  - intros fpath' lang Hlang. unfold imports.extract_imports.
    destruct (read_source fpath'); [|eauto]. destruct lang; by eauto.
Qed.

Lemma C1_syntax_error_is_swallowed_witness :
  ∃ forward reverse,
    @circular_deps.build_import_graph Sample.broken "/r" ignore.DEFAULT_IGNORE_PATTERNS
    = Ok (forward, reverse, []) ∧
    @ast_parse Sample.broken ("def (" +:+ Sample.nl) "/r/bad.py"
    = Raise (Exn SyntaxError "invalid syntax") ∧
    @imports.extract_imports Sample.broken "/r/bad.py" (Some imports.python) = Ok [].
Proof.
  destruct (@circular_deps.build_import_graph Sample.broken "/r"
              ignore.DEFAULT_IGNORE_PATTERNS) as [[[f r] e]|e] eqn:Hrun.
  - assert (e = []) as -> by (vm_compute in Hrun; congruence).
    exists f, r. split; [done|]. split; [done|].
    refine (proj1 (@C1_syntax_error_is_swallowed Sample.broken "/r" _ f r []
                     "/r/bad.py" ("def (" +:+ Sample.nl)
                     (Exn SyntaxError "invalid syntax") Hrun _ _ _ _));
      reflexivity.
  - vm_compute in Hrun. discriminate.
Defined.

(** ** Type-only imports *)

Section type_only.
Context `{!Runtime}.
Import imports.

(** Python: an import is marked type-only exactly when its line lies in the
    line range of the body of some [if] of the tree whose test is
    [TYPE_CHECKING] (a name or an attribute). *)
Lemma python_type_only_by_line_range file_path source tree imps imp :
  ast_parse source file_path = Ok tree →
  _extract_python_imports file_path source = Ok imps → imp ∈ imps →
  is_type_only imp = true ↔
  ∃ test body orelse l e first final,
    ast.If test body orelse l e ∈ ast.walk tree ∧
    is_type_checking_test test = true ∧
    head body = Some first ∧ list.last body = Some final ∧
    ast.lineno first ≤ line imp ≤ block_end final.
Proof.
  intros Hp. unfold _extract_python_imports. rewrite Hp. intros [= <-].
  intros (n & Himp & Hn)%list_elem_of_In%in_flat_map.
  set (ranges := omap type_checking_range (ast.walk tree)) in *.
  assert (is_type_only imp = _in_type_checking ranges (line imp)) as ->.
  { destruct n; simpl in Hn; try done;
      apply in_map_iff in Hn as (a & <- & _); done. }
  unfold _in_type_checking. rewrite existsb_exists. split.
  - intros ([start stop] & Hr%list_elem_of_In & Hb%bool_decide_eq_true).
    apply list_elem_of_omap in Hr as (m & Hm & Hrange).
    destruct m as [| |test body orelse l e|]; simpl in Hrange; try done.
    destruct (is_type_checking_test test) eqn:Htest; [|done].
    destruct (head body) as [first|] eqn:Hfirst; [|done].
    destruct (list.last body) as [final|] eqn:Hfinal; [|done].
    injection Hrange as <- <-. simpl in Hb.
    exists test, body, orelse, l, e, first, final. split_and!; try done; lia.
  - intros (test & body & orelse & l & e & first & final & Hm & Htest & Hfirst & Hfinal & Hb).
    exists (ast.lineno first, block_end final + 1). split.
    + apply list_elem_of_In, list_elem_of_omap.
      exists (ast.If test body orelse l e). split; [done|].
      simpl. by rewrite Htest, Hfirst, Hfinal.
    + apply bool_decide_eq_true. simpl. lia.
Qed.

(** JavaScript and TypeScript: the record of a match is type-only exactly
    when the match is of the [import type ... from] shape or the line holds
    [import type]. *)
Lemma js_type_only_marking file_path source lang imp :
  imp ∈ _extract_js_ts_imports file_path source lang →
  ∃ i line m,
    Py.splitlines source !! i = Some line ∧ imports.line imp = S i ∧
    m ∈ js_import_finditer line ∧
    is_type_only imp = Py.truthy (group1 m) || js_type_import_search line.
Proof.
  unfold _extract_js_ts_imports.
  intros (l & Himp & Hl)%list_elem_of_join.
  apply elem_of_lookup_imap in Hl as (i & ln & -> & Hln).
  unfold js_line_imports in Himp.
  destruct (_ || _); [by apply elem_of_nil in Himp|].
  apply list_elem_of_omap in Himp as (m & Hm & Hsome).
  destruct (Py.truthy (Py.or_ _ _)); [|done].
  injection Hsome as <-. by exists i, ln, m.
Qed.
End type_only.

(** C8. A file all of whose extracted imports are type-only contributes no
    edge: going through it registers its node and changes nothing else, and
    in the graph [build_import_graph] returns its node is there with an
    empty adjacency set (no other walked file having the same relative
    path).  An import is type-only, for Python, exactly when its line lies
    in the line range of the body of an [if TYPE_CHECKING:] of the tree; for
    JavaScript and TypeScript, exactly when the statement is an
    [import type]. *)
Theorem C8_type_only_file_has_no_edges `{!Runtime} (root : string)
    (patterns : list string) (forward reverse : graph)
    (errors : list ParseError.t) (fpath : string) (lang : imports.language)
    (imps : list imports.Import) :
  let files := ignore.walk_source_files root patterns None in
  circular_deps.build_import_graph root patterns = Ok (forward, reverse, errors) →
  fpath ∈ files →
  imports.detect_language fpath = Some lang →
  imports.extract_imports fpath (Some lang) = Ok imps →
  Forall (λ imp, imports.is_type_only imp = true) imps →
  (∀ fpath', fpath' ∈ files → node_of root fpath' = node_of root fpath →
     fpath' = fpath) →
  (∀ f r es,
     circular_deps.add_file root (f, r, es) fpath
     = Ok (if dict_mem f (node_of root fpath) then f
           else dict_set f (node_of root fpath) ∅, r, es)) ∧
  dict_get forward (node_of root fpath) = Some ∅ ∧
  (∀ file_path source tree imps' imp,
     ast_parse source file_path = Ok tree →
     imports._extract_python_imports file_path source = Ok imps' → imp ∈ imps' →
     imports.is_type_only imp = true ↔
     ∃ test body orelse l e first final,
       ast.If test body orelse l e ∈ ast.walk tree ∧
       imports.is_type_checking_test test = true ∧
       head body = Some first ∧ list.last body = Some final ∧
       ast.lineno first ≤ imports.line imp ≤ imports.block_end final) ∧
  (∀ file_path source lang' imp,
     imp ∈ imports._extract_js_ts_imports file_path source lang' →
     ∃ i line m,
       Py.splitlines source !! i = Some line ∧ imports.line imp = S i ∧
       m ∈ js_import_finditer line ∧
       imports.is_type_only imp
       = Py.truthy (group1 m) || js_type_import_search line).
Proof.
  intros files Hrun Hin Hl Hex Hty Huniq.
  split_and!.
  - intros f r es. unfold circular_deps.add_file. rewrite Hl, Hex.
    fold (node_of root fpath). by rewrite add_import_type_only.
  - apply build_import_graph_inv in Hrun as [[] _].
    assert (node_of root fpath ∈ dict_keys forward) as Hkey.
    { apply inv_registered0. by exists fpath, lang. }
    apply dict_get_is_Some in Hkey as [targets Hget].
    rewrite Hget. f_equal. apply leibniz_equiv, elem_of_equiv_empty.
    intros b Hb.
    destruct (inv_edge0 (node_of root fpath) b) as
      (fpath' & lang' & imps' & imp & resolved & Hin' & Hl' & Hnode & Hex' & Himp & Hno & _).
    { unfold dict_get_set. by rewrite Hget. }
    apply Huniq in Hin' as ->; [|done].
    assert (lang' = lang) as -> by congruence.
    assert (imps' = imps) as -> by congruence.
    rewrite list.Forall_forall in Hty. apply Hty in Himp. congruence.
  - intros. by eapply python_type_only_by_line_range.
  - intros. by eapply js_type_only_marking.
Qed.

Lemma C8_type_only_file_has_no_edges_witness :
  ∃ forward reverse errors,
    @circular_deps.build_import_graph Sample.typed "/r" ignore.DEFAULT_IGNORE_PATTERNS
    = Ok (forward, reverse, errors) ∧
    dict_get forward (@node_of Sample.typed "/r" "/r/a.py") = Some ∅.
Proof.
  destruct (@circular_deps.build_import_graph Sample.typed "/r"
              ignore.DEFAULT_IGNORE_PATTERNS) as [[[f r] e]|e] eqn:Hrun.
  - exists f, r, e. split; [done|].
    refine (proj1 (proj2 (@C8_type_only_file_has_no_edges Sample.typed "/r" _ f r e
      "/r/a.py" imports.python
      [ {| imports.source_file := "/r/a.py"; imports.target := "b";
           imports.alias := None; imports.is_type_only := true;
           imports.line := 2 |} ] Hrun _ _ _ _ _))).
    + apply (bool_decide_unpack _). by vm_compute.
    + reflexivity.
    + reflexivity.
    + by repeat constructor.
    + apply (proj1 (list.Forall_forall
        (λ fpath', @node_of Sample.typed "/r" fpath' = @node_of Sample.typed "/r" "/r/a.py"
                   → fpath' = "/r/a.py") _)).
      apply (bool_decide_unpack _). by vm_compute.
  - vm_compute in Hrun. discriminate.
Defined.

(** C10, as stated, fails: a JavaScript file imports, by its exact path, the
    C file next to it; the walk yields the C file, its language is not
    recognised, and yet [build_import_graph] registers a node for it, as the
    target of the import. *)
Lemma C10_counterexample :
  "/r/b.c" ∈ @ignore.walk_source_files Sample.native "/r"
               ignore.DEFAULT_IGNORE_PATTERNS None ∧
  imports.detect_language "/r/b.c" = None ∧
  ∃ forward reverse errors,
    @circular_deps.build_import_graph Sample.native "/r" ignore.DEFAULT_IGNORE_PATTERNS
    = Ok (forward, reverse, errors) ∧
    @node_of Sample.native "/r" "/r/b.c" ∈ dict_keys forward.
Proof.
  split; [apply (bool_decide_unpack _); by vm_compute|].
  split; [reflexivity|].
  destruct (@circular_deps.build_import_graph Sample.native "/r"
              ignore.DEFAULT_IGNORE_PATTERNS) as [[[f r] e]|e] eqn:Hrun.
  - exists f, r, e. split; [done|].
    vm_compute in Hrun. injection Hrun as <- _ _.
    apply (bool_decide_unpack _). by vm_compute.
  - vm_compute in Hrun. discriminate.
Qed.

(** C10, amended. A walked file whose extension is outside the language map
    is skipped when it is gone through: [detect_language] returns none and
    the maps and the error list stay as they are.  If the graph has its node
    all the same, then a file of a recognised language has the same relative
    path or the node is the resolved target of an import of a walked file;
    short of the former, the node has no outgoing edge and no entry in the
    error list. *)
Theorem C10_unsupported_file_is_skipped `{!Runtime} (root : string)
    (patterns : list string) (forward reverse : graph)
    (errors : list ParseError.t) (fpath : string) :
  let files := ignore.walk_source_files root patterns None in
  circular_deps.build_import_graph root patterns = Ok (forward, reverse, errors) →
  fpath ∈ files →
  imports.detect_language fpath = None →
  (∀ st, circular_deps.add_file root st fpath = Ok st) ∧
  (node_of root fpath ∈ dict_keys forward →
     registered root files (node_of root fpath) ∨
     ∃ a, edge_from root files a (node_of root fpath)) ∧
  (¬ registered root files (node_of root fpath) →
     dict_get_set forward (node_of root fpath) = ∅ ∧
     ∀ e, e ∈ errors → ParseError.file e ≠ node_of root fpath).
Proof.
  intros files Hrun Hin Hl.
  apply build_import_graph_inv in Hrun as [[] Herr]. fold files in Herr.
  split_and!.
  - intros [[f r] es]. unfold circular_deps.add_file. by rewrite Hl.
  - intros [?|[a Ha]]%inv_keys0; [by left|]. right. eauto.
  - intros Hnot. split.
    + apply leibniz_equiv, elem_of_equiv_empty. intros b Hb.
      apply inv_edge0 in Hb as (f' & lang & _ & _ & _ & ? & ? & ? & _).
      apply Hnot. by exists f', lang.
    + intros e (f' & lang & exn & ? & ? & _ & ->)%Herr Heq. simpl in Heq.
      apply Hnot. by exists f', lang.
Qed.

Lemma C10_unsupported_file_is_skipped_witness :
  ∃ forward reverse errors,
    @circular_deps.build_import_graph Sample.native "/r" ignore.DEFAULT_IGNORE_PATTERNS
    = Ok (forward, reverse, errors) ∧
    ∀ st, @circular_deps.add_file Sample.native "/r" st "/r/b.c" = Ok st.
Proof.
  destruct (@circular_deps.build_import_graph Sample.native "/r"
              ignore.DEFAULT_IGNORE_PATTERNS) as [[[f r] e]|e] eqn:Hrun.
  - exists f, r, e. split; [done|].
    refine (proj1 (@C10_unsupported_file_is_skipped Sample.native "/r" _ f r e
                     "/r/b.c" Hrun _ _)).
    + apply (bool_decide_unpack _). by vm_compute.
    + reflexivity.
  - vm_compute in Hrun. discriminate.
Defined.

(** ** Strings *)

Lemma string_app_cons (c : ascii) (s1 s2 : string) :
  String c s1 +:+ s2 = String c (s1 +:+ s2).
Proof. reflexivity. Qed.

Lemma string_app_nil_r (s : string) : s +:+ "" = s.
Proof. induction s as [|c s IH]; [done|]. by rewrite string_app_cons, IH. Qed.

Lemma string_app_assoc (s1 s2 s3 : string) :
  (s1 +:+ s2) +:+ s3 = s1 +:+ (s2 +:+ s3).
Proof. induction s1 as [|c s1 IH]; [done|]. by rewrite !string_app_cons, IH. Qed.

Lemma string_rev_app_app (s1 s2 acc : string) :
  String.rev_app (s1 +:+ s2) acc = String.rev_app s2 (String.rev_app s1 acc).
Proof.
  revert acc. induction s1 as [|c s1 IH]; intros acc; [done|].
  rewrite string_app_cons. simpl. apply IH.
Qed.

Lemma string_rev_app_acc (s acc : string) :
  String.rev_app s acc = String.rev s +:+ acc.
Proof.
  unfold String.rev. revert acc. induction s as [|c s IH]; intros acc; simpl; [done|].
  rewrite IH, (IH (String c "")). by rewrite string_app_assoc.
Qed.

Lemma string_rev_cons (c : ascii) (s : string) :
  String.rev (String c s) = String.rev s +:+ String c "".
Proof. unfold String.rev at 1. simpl. apply string_rev_app_acc. Qed.

Lemma string_rev_snoc (c : ascii) (s : string) :
  String.rev (s +:+ String c "") = String c (String.rev s).
Proof. unfold String.rev. by rewrite string_rev_app_app. Qed.

Lemma string_prefix_app (p s : string) :
  String.prefix p s = true ↔ ∃ r, s = p +:+ r.
Proof.
  revert s. induction p as [|c p IH]; intros s.
  - split; [|by destruct s]. intros _. by exists s.
  - destruct s as [|d s]; [by split; [|intros [? [=]]]|].
    simpl. destruct (ascii_dec c d) as [->|Hne].
    + rewrite IH. split; intros [r Hr]; exists r.
      * by rewrite string_app_cons, Hr.
      * rewrite string_app_cons in Hr. by injection Hr.
    + split; [done|]. intros [r Hr]. rewrite string_app_cons in Hr. by injection Hr.
Qed.

(** A trailing slash does not change what [rstrip("/")] leaves. *)
Lemma rstrip_char_snoc (c : ascii) (s : string) :
  Py.rstrip_char c (s +:+ String c "") = Py.rstrip_char c s.
Proof.
  unfold Py.rstrip_char. rewrite string_rev_snoc. simpl. by rewrite decide_True.
Qed.

(** ** Beyond the claims: lib/ignore.py *)

(** X1. [load_ignore_patterns]: the defaults always come first, followed by
    the patterns of the file and by the extra ones; a pattern taken from the
    file is a stripped line that is neither empty nor a comment.  A file
    that is not given, or is not there, is no error: the result is the
    defaults and the extra patterns.  The only exception it lets through is
    the one that ended the reading of an existing file. *)
Theorem X1_load_ignore_patterns `{!Runtime} (ignore_file : option string)
    (extra_patterns : option (list string)) :
  (∀ patterns,
     ignore.load_ignore_patterns ignore_file extra_patterns = Ok patterns →
     ∃ from_file,
       patterns = ignore.DEFAULT_IGNORE_PATTERNS ++ from_file
                  ++ default [] extra_patterns ∧
       ∀ p, p ∈ from_file →
         p ≠ "" ∧ Py.startswith p "#" = false ∧
         ∃ f line, ignore_file = Some f ∧ isfile f = true ∧
                   line ∈ (read_lines f).1 ∧ p = Py.strip line) ∧
  ((∀ f, ignore_file = Some f → isfile f = false) →
     ignore.load_ignore_patterns ignore_file extra_patterns
     = Ok (ignore.DEFAULT_IGNORE_PATTERNS ++ default [] extra_patterns)) ∧
  (∀ e,
     ignore.load_ignore_patterns ignore_file extra_patterns = Raise e →
     ∃ f, ignore_file = Some f ∧ isfile f = true ∧ (read_lines f).2 = Some e).
Proof.
  unfold ignore.load_ignore_patterns. split_and!.
  - intros patterns (from_file & Hfile & Hret)%bind_Ok.
    injection Hret as <-. exists from_file. split; [done|].
    destruct ignore_file as [f|]; [|injection Hfile as <-; set_solver].
    destruct (Py.truthy (Some f) && isfile f) eqn:Hcond;
      [|injection Hfile as <-; set_solver].
    apply andb_true_iff in Hcond as [_ Hisfile].
    destruct (read_lines f) as [lines [e|]] eqn:Hread; [done|].
    injection Hfile as <-.
    intros p [[Hne Hhash] Hp]%list_elem_of_filter.
    apply list_elem_of_fmap in Hp as (line & -> & Hline).
    split_and!; [done..|]. exists f, line. by rewrite Hread.
  - intros Hnone. destruct ignore_file as [f|]; [|done].
    rewrite (Hnone f eq_refl), andb_false_r. done.
  - intros e Hraise. destruct ignore_file as [f|]; [|done].
    destruct (Py.truthy (Some f) && isfile f) eqn:Hcond; [|done].
    apply andb_true_iff in Hcond as [_ Hisfile].
    destruct (read_lines f) as [lines [e'|]] eqn:Hread; [|done].
    injection Hraise as ->. exists f. by rewrite Hread.
Qed.

(** X2. [should_ignore]: a path is ignored by a list of patterns exactly
    when one of the patterns ignores it, so no pattern ignores nothing,
    more patterns ignore more and their order is immaterial; and a pattern
    with a trailing slash ignores what the pattern without it does. *)
Theorem X2_should_ignore `{!Runtime} (path root pat : string)
    (ps1 ps2 : list string) :
  ignore.should_ignore path (ps1 ++ ps2) root
  = ignore.should_ignore path ps1 root || ignore.should_ignore path ps2 root ∧
  ignore.should_ignore path [] root = false ∧
  ignore.should_ignore path ((pat +:+ "/") :: ps1) root
  = ignore.should_ignore path (pat :: ps1) root ∧
  (∀ ps ps', ps ⊆ ps' →
     ignore.should_ignore path ps root = true →
     ignore.should_ignore path ps' root = true).
Proof.
  unfold ignore.should_ignore. split_and!.
  - apply existsb_app.
  - done.
  - simpl. by rewrite rstrip_char_snoc.
  - intros ps ps' Hsub. rewrite !existsb_exists.
    intros (p & Hp%list_elem_of_In & ?). exists p. split; [|done].
    apply list_elem_of_In. by apply Hsub.
Qed.

(** ** Sanity checks of the library models *)

Example t_split1 : Py.split "a::b::" "::" = ["a"; "b"; ""]. Proof. reflexivity. Qed.
Example t_split2 : Py.split "" "::" = [""]. Proof. reflexivity. Qed.
Example t_split3 : Py.split "a:::b" "::" = ["a"; ":b"]. Proof. reflexivity. Qed.
Example t_repl : Py.replace "crate::a:::b" "::" "/" = "crate/a/:b". Proof. reflexivity. Qed.
Example t_lower : Py.lower "UtIls_1" = "utils_1". Proof. reflexivity. Qed.
Example t_strip : Py.strip "  a b 
 " = "a b". Proof. reflexivity. Qed.
Example t_words : Py.words " module  x/y  z" = ["module"; "x/y"; "z"]. Proof. reflexivity. Qed.
Example t_lines : Py.splitlines (String "a" (String "013" (String "010" (String "b" (String "010" (String "010" "c")))))) = ["a"; "b"; ""; "c"]. Proof. reflexivity. Qed.
Example t_lines2 : Py.splitlines (String "a" (String "010" "")) = ["a"]. Proof. reflexivity. Qed.

Example t_join : posixpath.join "/r" ["a"; "b.py"] = "/r/a/b.py". Proof. reflexivity. Qed.
Example t_join2 : posixpath.join "/r/" ["/x"; "b.py"] = "/x/b.py". Proof. reflexivity. Qed.
Example t_dir : posixpath.dirname "/r/a/b.py" = "/r/a". Proof. reflexivity. Qed.
Example t_dir2 : posixpath.dirname "/b.py" = "/". Proof. reflexivity. Qed.
Example t_dir3 : posixpath.dirname "b.py" = "". Proof. reflexivity. Qed.
Example t_dir4 : posixpath.dirname "a//b.py" = "a". Proof. reflexivity. Qed.
Example t_ext : posixpath.splitext "/r/a.b/c.tar.GZ" = ("/r/a.b/c.tar", ".GZ"). Proof. reflexivity. Qed.
Example t_ext2 : posixpath.splitext "/r/a.b/.bashrc" = ("/r/a.b/.bashrc", ""). Proof. reflexivity. Qed.
Example t_ext3 : posixpath.splitext "/r/a.b/..x.py" = ("/r/a.b/..x", ".py"). Proof. reflexivity. Qed.
Example t_ext4 : posixpath.splitext "/r/a.b/c" = ("/r/a.b/c", ""). Proof. reflexivity. Qed.
Example t_norm : posixpath.normpath "/r/./a/../b//c/" = "/r/b/c". Proof. reflexivity. Qed.
Example t_norm2 : posixpath.normpath "../a/../../b" = "../../b". Proof. reflexivity. Qed.
Example t_norm3 : posixpath.normpath "//a/.." = "//". Proof. reflexivity. Qed.
Example t_norm4 : posixpath.normpath "/../a" = "/a". Proof. reflexivity. Qed.
Example t_rel : posixpath.relpath "/cwd" "/r/a/b.py" "/r" = "a/b.py". Proof. reflexivity. Qed.
Example t_rel2 : posixpath.relpath "/cwd" "/x/b.py" "/r/s" = "../../x/b.py". Proof. reflexivity. Qed.
Example t_rel3 : posixpath.relpath "/cwd" "r/b.py" "r" = "b.py". Proof. reflexivity. Qed.
Example t_parts : posixpath.parts "a/./Utils//b.py" = ["a"; "Utils"; "b.py"]. Proof. reflexivity. Qed.
Example t_parts2 : posixpath.parts "/a/../b.py" = ["/"; "a"; ".."; "b.py"]. Proof. reflexivity. Qed.

Example t_sorted : sorted Nat.le [3; 1; 2; 1] = [1; 1; 2; 3]. Proof. reflexivity. Qed.
Example t_median1 : median [3; 1; 2] = Qc_of_Z 2. Proof. apply (bool_decide_unpack _). by vm_compute. Qed.
Example t_median2 : median [3; 1; 2; 8] = Q2Qc (5 # 2). Proof. apply (bool_decide_unpack _). by vm_compute. Qed.
Example t_round1 : round1 (Q2Qc (628 # 100)) = Q2Qc (63 # 10). Proof. apply (bool_decide_unpack _). by vm_compute. Qed.
Example t_round2 : round1 (Q2Qc (25 # 100)) = Q2Qc (2 # 10). Proof. apply (bool_decide_unpack _). by vm_compute. Qed.
Example t_round3 : round1 (Q2Qc (75 # 100)) = Q2Qc (8 # 10). Proof. apply (bool_decide_unpack _). by vm_compute. Qed.
Example t_round4 : round1 (Q2Qc (15 # 2)) = Q2Qc (15 # 2). Proof. apply (bool_decide_unpack _). by vm_compute. Qed.

Example t_walk : @ignore.walk_source_files Sample.star "/r" ignore.DEFAULT_IGNORE_PATTERNS None = ["/r/a.py"; "/r/b.py"; "/r/c.py"].
Proof. by vm_compute. Qed.
